(** * A shallow embedding of [app.py], the chat backend of ananta_backend

    The development follows the module top to bottom: the text builtins
    the code relies on ([str.lower], [str.strip], [in]), the dynamic
    values exchanged with Flask and the provider SDKs, the start-up script
    that picks [BACKEND], the three reply functions and the
    [/get_response] view.

    Text.  A Python [str] is modelled by a [string] holding its UTF-8
    encoding.  [strip] removes the white space of [str.isspace], in one,
    two or three bytes.  [lower] lowers the ASCII letters and the two
    characters outside ASCII whose lower-case form holds an ASCII letter
    (U+0130 and U+212A); the other characters, whose lower-case forms
    stay outside ASCII, are carried through as they are.  The words the
    code looks for in a lowered text are ASCII, so each of its tests
    comes out as it does on the text [str.lower] gives. *)

From Stdlib Require Import ZArith Ascii SpecFloat.
From Stdlib Require String.
From stdpp Require Import base strings list gmap.

Local Open Scope Z_scope.
Local Set Warnings "-register-all".

(** ** Text builtins *)

Module Text.

Definition is_upper (c : ascii) : bool :=
  let n := nat_of_ascii c in (Nat.leb 65 n && Nat.leb n 90)%bool.

Definition is_lower (c : ascii) : bool :=
  let n := nat_of_ascii c in (Nat.leb 97 n && Nat.leb n 122)%bool.

(** The other case of an ASCII letter; any other byte is left alone. *)
Definition lower_char (c : ascii) : ascii :=
  if is_upper c then ascii_of_nat (nat_of_ascii c + 32) else c.

Definition upper_char (c : ascii) : ascii :=
  if is_lower c then ascii_of_nat (nat_of_ascii c - 32) else c.

Fixpoint map_chars (f : ascii → ascii) (s : string) : string :=
  match s with
  | EmptyString => EmptyString
  | String c t => String (f c) (map_chars f t)
  end.

(** The byte [c] has the value [n]. *)
Definition byte_is (c : ascii) (n : nat) : bool := Nat.eqb (nat_of_ascii c) n.

(** A byte below 128, that is an ASCII character. *)
Definition is_ascii_char (c : ascii) : bool := Nat.ltb (nat_of_ascii c) 128.

Fixpoint all_chars (p : ascii → bool) (s : string) : bool :=
  match s with
  | EmptyString => true
  | String c t => (p c && all_chars p t)%bool
  end.

(** "i" followed by U+0307, the lower-case form of U+0130. *)
Definition dotted_i : string :=
  String "i"%char (String "204"%char (String "135"%char EmptyString)).

(** The two characters outside ASCII whose lower-case form holds an
    ASCII letter: U+0130 (bytes C4 B0) becomes [dotted_i] and U+212A, the
    Kelvin sign (bytes E2 84 AA), becomes "k".  When [s] starts with one
    of them, its lower-case form and the rest of [s]. *)
Definition lower_special (s : string) : option (string * string) :=
  match s with
  | String c (String d t) =>
      if (byte_is c 196 && byte_is d 176)%bool then Some (dotted_i, t)
      else
        match t with
        | String e t' =>
            if (byte_is c 226 && byte_is d 132 && byte_is e 170)%bool
            then Some (String "k"%char EmptyString, t')
            else None
        | EmptyString => None
        end
  | _ => None
  end.

(** [s.lower()] *)
Fixpoint lower (s : string) : string :=
  match s with
  | EmptyString => EmptyString
  | String c t =>
      match t with
      | String d t' =>
          if (byte_is c 196 && byte_is d 176)%bool then dotted_i +:+ lower t'
          else
            match t' with
            | String e t'' =>
                if (byte_is c 226 && byte_is d 132 && byte_is e 170)%bool
                then String "k"%char (lower t'')
                else String (lower_char c) (lower t)
            | EmptyString => String (lower_char c) (lower t)
            end
      | EmptyString => String (lower_char c) (lower t)
      end
  end.

(** White space in one byte: tab, line feed, vertical tab, form feed,
    carriage return, the separators 0x1c-0x1f and the space. *)
Definition is_space (c : ascii) : bool :=
  let n := nat_of_ascii c in
  ((Nat.leb 9 n && Nat.leb n 13) || (Nat.leb 28 n && Nat.leb n 32))%bool.

(** White space in two bytes: U+0085 (C2 85) and U+00A0 (C2 A0). *)
Definition is_space2 (c d : ascii) : bool :=
  (byte_is c 194 && (byte_is d 133 || byte_is d 160))%bool.

(** White space in three bytes: U+1680 (E1 9A 80), U+2000-U+200A
    (E2 80 80-8A), U+2028, U+2029, U+202F (E2 80 A8, A9, AF), U+205F
    (E2 81 9F) and U+3000 (E3 80 80). *)
Definition is_space3 (c d e : ascii) : bool :=
  let n := nat_of_ascii e in
  ((byte_is c 225 && byte_is d 154 && byte_is e 128)
   || (byte_is c 226 && byte_is d 128
       && ((Nat.leb 128 n && Nat.leb n 138)
           || byte_is e 168 || byte_is e 169 || byte_is e 175))
   || (byte_is c 226 && byte_is d 129 && byte_is e 159)
   || (byte_is c 227 && byte_is d 128 && byte_is e 128))%bool.

(** When [s] starts with a white-space character, what follows it. *)
Definition space_at (s : string) : option string :=
  match s with
  | EmptyString => None
  | String c t =>
      if is_space c then Some t
      else
        match t with
        | String d t' =>
            if is_space2 c d then Some t'
            else
              match t' with
              | String e t'' => if is_space3 c d e then Some t'' else None
              | EmptyString => None
              end
        | EmptyString => None
        end
  end.

Definition is_empty (s : string) : bool :=
  match s with EmptyString => true | String _ _ => false end.

(** [s.lstrip()] *)
Fixpoint lstrip (s : string) : string :=
  match s with
  | EmptyString => EmptyString
  | String c t =>
      if is_space c then lstrip t
      else
        match t with
        | String d t' =>
            if is_space2 c d then lstrip t'
            else
              match t' with
              | String e t'' => if is_space3 c d e then lstrip t'' else s
              | EmptyString => s
              end
        | EmptyString => s
        end
  end.

(** [s] is made of white space only ([s.strip()] would be empty). *)
Fixpoint all_space (s : string) : bool :=
  match s with
  | EmptyString => true
  | String c t =>
      if is_space c then all_space t
      else
        match t with
        | String d t' =>
            if is_space2 c d then all_space t'
            else
              match t' with
              | String e t'' => if is_space3 c d e then all_space t'' else false
              | EmptyString => false
              end
        | EmptyString => false
        end
  end.

(** [s.rstrip()]: cut [s] where only white space is left. *)
Fixpoint rstrip (s : string) : string :=
  match s with
  | EmptyString => EmptyString
  | String c t => if all_space s then EmptyString else String c (rstrip t)
  end.

(** [s.strip()] *)
Definition strip (s : string) : string := rstrip (lstrip s).

(** The number of bytes of the character that starts with the byte [c]. *)
Definition char_width (c : ascii) : nat :=
  let n := nat_of_ascii c in
  if Nat.ltb n 192 then 1%nat
  else if Nat.ltb n 224 then 2%nat
  else if Nat.ltb n 240 then 3%nat else 4%nat.

(** [s[0]] for a non-empty [s]: its first character. *)
Definition first_char (s : string) : string :=
  match s with
  | EmptyString => EmptyString
  | String c _ => String.substring 0 (char_width c) s
  end.

Fixpoint starts_with (p s : string) : bool :=
  match p, s with
  | EmptyString, _ => true
  | String _ _, EmptyString => false
  | String a p', String b s' => (Ascii.eqb a b && starts_with p' s')%bool
  end.

(** [needle in hay] for two strings: [needle] occurs as a contiguous
    run of [hay]. *)
Fixpoint contains (hay needle : string) : bool :=
  (starts_with needle hay ||
   match hay with
   | EmptyString => false
   | String _ t => contains t needle
   end)%bool.

(** Two texts that differ at most in the case of their ASCII letters. *)
Inductive same_up_to_case : string → string → Prop :=
| sutc_nil : same_up_to_case EmptyString EmptyString
| sutc_cons c d s t :
    d = c ∨ d = upper_char c ∨ d = lower_char c →
    same_up_to_case s t →
    same_up_to_case (String c s) (String d t).

(** U+0131, the dotless i (bytes C4 B1). *)
Definition dotless_i : string :=
  String "196"%char (String "177"%char EmptyString).

(** Some of the changes of letter case that [str.upper], [str.lower] and
    [str.swapcase] make: an ASCII letter to its other case, and the
    dotless i to "I", its upper-case form. *)
Inductive case_changed : string → string → Prop :=
| cc_nil : case_changed EmptyString EmptyString
| cc_ascii c d s t :
    d = c ∨ d = upper_char c ∨ d = lower_char c →
    case_changed s t →
    case_changed (String c s) (String d t)
| cc_dotless_i s t :
    case_changed s t →
    case_changed (dotless_i +:+ s) (String "I"%char t).

End Text.

(** ** Dynamic values *)

(** The values that travel through the view: what [get_json] parses, what
    the provider SDKs hand back and what [jsonify] is given.  A [dict]
    keeps its items as an association list read from the left; its keys
    are strings, as they are in JSON. *)
Inductive pyval : Type :=
| PNone
| PBool (b : bool)
| PInt (n : Z)
| PFloat (x : spec_float)
| PStr (s : string)
| PList (l : list pyval)
| PTuple (l : list pyval)
| PDict (d : list (string * pyval)).

(** [bool(v)] *)
Definition truthy (v : pyval) : bool :=
  match v with
  | PNone => false
  | PBool b => b
  | PInt n => negb (n =? 0)
  | PFloat (S754_zero _) => false
  | PFloat _ => true
  | PStr s => negb (Text.is_empty s)
  | PList l | PTuple l => match l with [] => false | _ => true end
  | PDict d => match d with [] => false | _ => true end
  end.

(** [type(v).__name__] *)
Definition type_name (v : pyval) : string :=
  match v with
  | PNone => "NoneType"
  | PBool _ => "bool"
  | PInt _ => "int"
  | PFloat _ => "float"
  | PStr _ => "str"
  | PList _ => "list"
  | PTuple _ => "tuple"
  | PDict _ => "dict"
  end.

Definition is_str (v : pyval) : bool :=
  match v with PStr _ => true | _ => false end.

(** [a or b] *)
Definition py_or (a b : pyval) : pyval := if truthy a then a else b.

Fixpoint assoc (k : string) (d : list (string * pyval)) : option pyval :=
  match d with
  | [] => None
  | (k', v) :: d' => if String.eqb k k' then Some v else assoc k d'
  end.

(** ** Exceptions *)

Inductive exn_class : Type :=
| AttributeError | TypeError | KeyError | IndexError | NameError
| ProviderError (name : string).

(** An instance of (a subclass of) [Exception]; [exn_str e] is [str(e)]. *)
Record exn : Type := Exn { exn_cls : exn_class; exn_str : string }.

Inductive result (A : Type) : Type :=
| Ok (a : A)
| Raise (e : exn).
Arguments Ok {A} a.
Arguments Raise {A} e.

Definition no_attribute (v : pyval) (name : string) : exn :=
  Exn AttributeError
      ("'" +:+ type_name v +:+ "' object has no attribute '" +:+ name +:+ "'").

Definition not_subscriptable (v : pyval) : exn :=
  Exn TypeError ("'" +:+ type_name v +:+ "' object is not subscriptable").

(** [v[key]] with a string key *)
Definition getitem_str (v : pyval) (key : string) : result pyval :=
  match v with
  | PDict d =>
      match assoc key d with
      | Some x => Ok x
      | None => Raise (Exn KeyError ("'" +:+ key +:+ "'"))
      end
  | PStr _ => Raise (Exn TypeError "string indices must be integers, not 'str'")
  | PList _ => Raise (Exn TypeError "list indices must be integers or slices, not str")
  | PTuple _ => Raise (Exn TypeError "tuple indices must be integers or slices, not str")
  | _ => Raise (not_subscriptable v)
  end.

(** [v[0]] *)
Definition getitem_0 (v : pyval) : result pyval :=
  match v with
  | PList (x :: _) | PTuple (x :: _) => Ok x
  | PList [] => Raise (Exn IndexError "list index out of range")
  | PTuple [] => Raise (Exn IndexError "tuple index out of range")
  | PStr (String c t) => Ok (PStr (Text.first_char (String c t)))
  | PStr EmptyString => Raise (Exn IndexError "string index out of range")
  | PDict _ => Raise (Exn KeyError "0")
  | _ => Raise (not_subscriptable v)
  end.

(** [v.strip()] *)
Definition method_strip (v : pyval) : result string :=
  match v with
  | PStr s => Ok (Text.strip s)
  | _ => Raise (no_attribute v "strip")
  end.

(** [v.get(key)] *)
Definition method_get (v : pyval) (key : string) : result pyval :=
  match v with
  | PDict d => Ok (default PNone (assoc key d))
  | _ => Raise (no_attribute v "get")
  end.

(** Line 168: [(data.get("message") or "").strip()] *)
Definition user_message_of (data : pyval) : result string :=
  match method_get data "message" with
  | Ok message => method_strip (py_or message (PStr ""))
  | Raise e => Raise e
  end.

(** ** The process and its module globals *)

Inductive level : Type := INFO | WARNING | ERROR.

(** What the start-up script finds on the host: whether [import openai]
    and [from google import genai] succeed, whether [genai.Client] takes
    the [api_key] keyword (it raises [TypeError] when it does not), and
    [os.environ] once [load_dotenv] has run. *)
Record host : Type := Host {
  openai_importable : bool;
  genai_importable : bool;
  Client_takes_api_key : bool;
  environ : gmap string string
}.

(** The object built by [genai.Client(api_key=...)] or [genai.Client()]. *)
Inductive genai_Client : Type := Client (api_key : option string).

(** An object handed back by [generate_content]: its attributes and the
    text [str] gives for it. *)
Record py_object : Type := PyObject {
  attrs : list (string * pyval);
  obj_str : string
}.

Record chat_request : Type := ChatRequest {
  cr_model : string;
  cr_messages : list (string * string);
  cr_max_tokens : Z;
  cr_temperature : spec_float;
  cr_n : Z
}.

Record generate_request : Type := GenerateRequest {
  gr_client : genai_Client;
  gr_model : string;
  gr_contents : string;
  gr_max_output_tokens : Z;
  gr_temperature : spec_float;
  gr_candidate_count : Z
}.

(** The two outbound calls, as the providers answer them. *)
Record providers : Type := Providers {
  ChatCompletion_create : chat_request → result pyval;
  generate_content : generate_request → result py_object
}.

Inductive event : Type :=
| Log (lv : level) (msg : string) (exc_info : option exn)
| CallOpenAI (r : chat_request)
| CallGemini (r : generate_request).

Record globals : Type := Globals {
  _openai_available : bool;
  _gemini_available : bool;
  os_environ : gmap string string;
  BACKEND : string;
  OPENAI_API_KEY : option string;
  OPENAI_MODEL : string;
  GEMINI_API_KEY : option string;
  GEMINI_MODEL : string;
  openai_api_key : option string;
  genai_client : option genai_Client
}.

Definition set_BACKEND (b : string) (g : globals) : globals :=
  Globals (_openai_available g) (_gemini_available g) (os_environ g) b
          (OPENAI_API_KEY g) (OPENAI_MODEL g) (GEMINI_API_KEY g)
          (GEMINI_MODEL g) (openai_api_key g) (genai_client g).

Definition set_openai (key : option string) (model : string) (g : globals)
  : globals :=
  Globals (_openai_available g) (_gemini_available g) (os_environ g)
          (BACKEND g) key model (GEMINI_API_KEY g) (GEMINI_MODEL g)
          (openai_api_key g) (genai_client g).

Definition set_gemini (key : option string) (model : string) (g : globals)
  : globals :=
  Globals (_openai_available g) (_gemini_available g) (os_environ g)
          (BACKEND g) (OPENAI_API_KEY g) (OPENAI_MODEL g) key model
          (openai_api_key g) (genai_client g).

Definition set_openai_api_key (key : option string) (g : globals) : globals :=
  Globals (_openai_available g) (_gemini_available g) (os_environ g)
          (BACKEND g) (OPENAI_API_KEY g) (OPENAI_MODEL g) (GEMINI_API_KEY g)
          (GEMINI_MODEL g) key (genai_client g).

Definition set_genai_client (env : gmap string string) (c : genai_Client)
    (g : globals) : globals :=
  Globals (_openai_available g) (_gemini_available g) env
          (BACKEND g) (OPENAI_API_KEY g) (OPENAI_MODEL g) (GEMINI_API_KEY g)
          (GEMINI_MODEL g) (openai_api_key g) (Some c).

(** ** Start-up: lines 7-68 *)

(** [os.getenv(name)] and [os.getenv(name, fallback)] *)
Definition getenv (env : gmap string string) (name : string) : option string :=
  env !! name.

Definition getenv_or (env : gmap string string) (name fallback : string)
  : string :=
  default fallback (env !! name).

(** [not key] for a value read with [os.getenv] *)
Definition key_missing (key : option string) : bool :=
  match key with
  | None => true
  | Some s => Text.is_empty s
  end.

(** Lines 7-33: the two guarded imports and the requested backend.  The
    names bound further down start out unset. *)
Definition after_imports (h : host) : globals :=
  {| _openai_available := openai_importable h;
     _gemini_available := genai_importable h;
     os_environ := environ h;
     BACKEND := Text.lower (getenv_or (environ h) "CHATBOT_BACKEND" "simple");
     OPENAI_API_KEY := None;
     OPENAI_MODEL := "";
     GEMINI_API_KEY := None;
     GEMINI_MODEL := "";
     openai_api_key := None;
     genai_client := None |}.

(** Lines 36-47 *)
Definition init_openai (g : globals) : globals * list event :=
  let g :=
    set_openai (getenv (os_environ g) "OPENAI_API_KEY")
               (getenv_or (os_environ g) "OPENAI_MODEL" "gpt-3.5-turbo") g in
  if String.eqb (BACKEND g) "openai" then
    if negb (_openai_available g) then
      (set_BACKEND "simple" g,
       [Log WARNING "OpenAI library not installed; OpenAI backend won't work unless you install `openai`." None])
    else if key_missing (OPENAI_API_KEY g) then
      (set_BACKEND "simple" g,
       [Log WARNING "OPENAI_API_KEY not found; falling back to simple backend." None])
    else
      (set_openai_api_key (OPENAI_API_KEY g) g,
       [Log INFO ("OpenAI backend active. Model: " +:+ OPENAI_MODEL g) None])
  else (g, []).

(** Lines 50-66 *)
Definition init_gemini (h : host) (g : globals) : globals * list event :=
  let g :=
    set_gemini (getenv (os_environ g) "GEMINI_API_KEY")
               (getenv_or (os_environ g) "GEMINI_MODEL" "gemini-2.5-flash") g in
  if String.eqb (BACKEND g) "gemini" then
    if negb (_gemini_available g) then
      (set_BACKEND "simple" g,
       [Log WARNING "google-genai not installed; Gemini backend won't work unless you install `google-genai`." None])
    else
      match GEMINI_API_KEY g with
      | Some key =>
          if Text.is_empty key then
            (set_BACKEND "simple" g,
             [Log WARNING "GEMINI_API_KEY not found; falling back to simple backend." None])
          else
            let env := <["GEMINI_API_KEY" := key]> (os_environ g) in
            let client :=
              if Client_takes_api_key h then Client (Some key) else Client None in
            (set_genai_client env client g,
             [Log INFO ("Gemini backend active. Model: " +:+ GEMINI_MODEL g) None])
      | None =>
          (set_BACKEND "simple" g,
           [Log WARNING "GEMINI_API_KEY not found; falling back to simple backend." None])
      end
  else (g, []).

(** The whole module body up to line 68. *)
Definition startup (h : host) : globals * list event :=
  let g0 := after_imports h in
  let '(g1, ev1) := init_openai g0 in
  let '(g2, ev2) := init_gemini h g1 in
  (g2, ev1 ++ ev2 ++ [Log INFO ("Chatbot backend selected: " +:+ BACKEND g2) None]).

(** The three reply strategies, as the dispatch at lines 173-178 tells
    them apart from the value of [BACKEND]. *)
Inductive BackendKind : Type := Local | ProviderA | ProviderB.

Definition backend_kind (backend : string) : BackendKind :=
  if String.eqb backend "openai" then ProviderA
  else if String.eqb backend "gemini" then ProviderB
  else Local.

(** ** Request handling: a state, exception and trace monad *)

(** A computation runs against the module globals, may raise, hands the
    globals back and leaves the log records and outbound calls it
    made, oldest first. *)
Definition M (A : Type) : Type := globals → result A * globals * list event.

Global Instance M_ret : MRet M := λ A a g, (Ok a, g, []).

Global Instance M_bind : MBind M := λ A B k m g,
  match m g with
  | (Ok a, g', ev) => let '(r, g'', ev') := k a g' in (r, g'', ev ++ ev')
  | (Raise e, g', ev) => (Raise e, g', ev)
  end.

Definition raise {A : Type} (e : exn) : M A := λ g, (Raise e, g, []).

Definition lift {A : Type} (r : result A) : M A := λ g, (r, g, []).

Definition read {A : Type} (f : globals → A) : M A := λ g, (Ok (f g), g, []).

Definition emit (e : event) : M unit := λ g, (Ok tt, g, [e]).

(** [try: m except Exception as e: h e] *)
Definition try_except {A : Type} (m : M A) (h : exn → M A) : M A := λ g,
  match m g with
  | (Ok a, g', ev) => (Ok a, g', ev)
  | (Raise e, g', ev) => let '(r, g'', ev') := h e g' in (r, g'', ev ++ ev')
  end.

(** [logging.exception(msg)] inside a handler for [e] *)
Definition logging_exception (msg : string) (e : exn) : M unit :=
  emit (Log ERROR msg (Some e)).

Definition name_error (name : string) : exn :=
  Exn NameError ("name '" +:+ name +:+ "' is not defined").

(** ** The local responder: lines 92-103 *)

Definition greeting_reply : string :=
  "Hi there! How can I help you today?".
Definition courses_reply : string :=
  "You can find your courses under the Courses section on the dashboard.".
Definition assignment_reply : string :=
  "Which subject is the assignment for? I can help with tips and resources.".
Definition help_reply : string :=
  "Tell me what you need help with — study plan, assignments, or resources?".
Definition fallback_reply : string :=
  "I'm still learning — can you rephrase that or ask about courses, assignments or login?".

Definition get_bot_reply_simple (user_message : string) : string :=
  let text := Text.lower user_message in
  if (Text.contains text "hello" || Text.contains text "hi")%bool then
    greeting_reply
  else if (Text.contains text "course" || Text.contains text "courses")%bool then
    courses_reply
  else if Text.contains text "assignment" then
    assignment_reply
  else if Text.contains text "help" then
    help_reply
  else fallback_reply.

(** ** The provider adapters: lines 105-158 *)

(** The binary64 value of the literal [0.2]. *)
Definition float_0_2 : spec_float := S754_finite false 7205759403792794 (-55).

Definition system_prompt : string :=
  "You are Ananta, an educational assistant for students. Be concise, helpful, and friendly.".

Definition newline : string := String "010"%char EmptyString.

(** [hasattr(o, name)] and [getattr(o, name, None)] *)
Definition hasattr (o : py_object) (name : string) : bool :=
  match assoc name (attrs o) with Some _ => true | None => false end.

Definition getattr_or_None (o : py_object) (name : string) : pyval :=
  default PNone (assoc name (attrs o)).

(** Lines 145-153: the text found under [output[0]["content"][0]["text"]],
    when every test on the way succeeds. *)
Definition nested_text (response : py_object) : option pyval :=
  let outputs := getattr_or_None response "output" in
  match outputs with
  | PList (first :: _) | PTuple (first :: _) =>
      match first with
      | PDict d =>
          match default PNone (assoc "content" d) with
          | PList (item :: _) =>
              match item with
              | PDict i => assoc "text" i
              | _ => None
              end
          | _ => None
          end
      | _ => None
      end
  | _ => None
  end.

(** Line 142: [hasattr(response, "text") and response.text] *)
Definition has_direct_text (response : py_object) : bool :=
  (hasattr response "text" && truthy (getattr_or_None response "text"))%bool.

(** Lines 141-155: from the provider's answer to the reply. *)
Definition gemini_reply_of (response : py_object) : pyval :=
  if has_direct_text response
  then getattr_or_None response "text"
  else
    match nested_text response with
    | Some t => t
    | None => PStr (obj_str response)
    end.

(** The arguments of [openai.ChatCompletion.create] at lines 111-120. *)
Definition chat_request_for (model user_message : string) : chat_request :=
  {| cr_model := model;
     cr_messages := [("system", system_prompt); ("user", user_message)];
     cr_max_tokens := 250;
     cr_temperature := float_0_2;
     cr_n := 1 |}.

(** The arguments of [generate_content] at lines 130-140. *)
Definition generate_request_for (client : genai_Client)
    (model user_message : string) : generate_request :=
  {| gr_client := client;
     gr_model := model;
     gr_contents := "User: " +:+ user_message +:+ newline +:+ "Assistant:";
     gr_max_output_tokens := 300;
     gr_temperature := float_0_2;
     gr_candidate_count := 1 |}.

Section Views.

(** The providers behind the two outbound calls. *)
Variable world : providers.

(** Lines 105-126 *)
Definition get_bot_reply_openai (user_message : string) : M string :=
  try_except
    (available ← read _openai_available;
     if negb available then raise (name_error "openai") else
     model ← read OPENAI_MODEL;
     let request := chat_request_for model user_message in
     emit (CallOpenAI request);;
     resp ← lift (ChatCompletion_create world request);
     choices ← lift (getitem_str resp "choices");
     choice ← lift (getitem_0 choices);
     message ← lift (getitem_str choice "message");
     content ← lift (getitem_str message "content");
     lift (method_strip content))
    (λ e, logging_exception "OpenAI call failed" e;; raise e).

(** Lines 128-158 *)
Definition get_bot_reply_gemini (user_message : string) : M pyval :=
  try_except
    (bound ← read genai_client;
     match bound with
     | None => raise (name_error "genai_client")
     | Some client =>
         model ← read GEMINI_MODEL;
         available ← read _gemini_available;
         if negb available then raise (name_error "genai_types") else
         let request := generate_request_for client model user_message in
         emit (CallGemini request);;
         response ← lift (generate_content world request);
         mret (gemini_reply_of response)
     end)
    (λ e, logging_exception "Gemini call failed" e;; raise e).

Inductive response : Type :=
| Json (status : Z) (payload : pyval)
| Page (template : string).

Definition error_body (msg : string) : pyval := PDict [("error", PStr msg)].
Definition reply_body (reply : pyval) : pyval := PDict [("reply", reply)].

(** Lines 172-178: the strategy picked by [BACKEND]. *)
Definition dispatch (user_message : string) : M pyval :=
  backend ← read BACKEND;
  if String.eqb backend "openai" then
    reply ← get_bot_reply_openai user_message; mret (PStr reply)
  else if String.eqb backend "gemini" then
    get_bot_reply_gemini user_message
  else mret (PStr (get_bot_reply_simple user_message)).

(** Lines 161-184.  [body] is what [request.get_json(force=True)] gives:
    [None] when it raises, the parsed value otherwise. *)
Definition get_response (body : option pyval) : M response :=
  match body with
  | None => mret (Json 400 (error_body "Invalid JSON body"))
  | Some data =>
      user_message ← lift (user_message_of data);
      if Text.is_empty user_message then
        mret (Json 400 (error_body "No message provided"))
      else
        try_except
          (reply ← dispatch user_message;
           mret (Json 200 (reply_body reply)))
          (λ e, logging_exception "Error while generating reply" e;;
                mret (Json 500 (error_body (exn_str e))))
  end.

(** Lines 71-89: the page routes, each a [render_template] call. *)
Definition render_template (template : string) : M response :=
  mret (Page template).

Definition home : M response := render_template "dashboard.html".
Definition dashboard : M response := render_template "dashboard.html".
Definition labs : M response := render_template "labs.html".
Definition chatbot_page : M response := render_template "chatbot.html".
Definition login : M response := render_template "login.html".

(** The routes registered on [app]. *)
Inductive request : Type :=
| GET_home | GET_dashboard | GET_labs | GET_chatbot | GET_login
| POST_get_response (body : option pyval).

Definition serve (r : request) : M response :=
  match r with
  | GET_home => home
  | GET_dashboard => dashboard
  | GET_labs => labs
  | GET_chatbot => chatbot_page
  | GET_login => login
  | POST_get_response body => get_response body
  end.

End Views.

(** The globals left by a run of requests, each answered by the providers
    as they are at that moment. *)
Fixpoint run (g : globals) (rs : list (providers * request)) : globals :=
  match rs with
  | [] => g
  | (w, r) :: rs' => run (serve w r g).1.2 rs'
  end.

(** ** Vocabulary of the statements *)

(** The backend asked for: [CHATBOT_BACKEND], lower-cased (line 33). *)
Definition requested (h : host) : string := BACKEND (after_imports h).

(** The library loads and the credential is a non-empty string. *)
Definition openai_ready (h : host) : bool :=
  (openai_importable h
   && negb (key_missing (getenv (environ h) "OPENAI_API_KEY")))%bool.

Definition gemini_ready (h : host) : bool :=
  (genai_importable h
   && negb (key_missing (getenv (environ h) "GEMINI_API_KEY")))%bool.

(** The backend in force once the module has been loaded. *)
Definition resolved (h : host) : string := BACKEND (startup h).1.

Definition resolved_kind (h : host) : BackendKind := backend_kind (resolved h).

(** A computation that hands the globals back as it found them. *)
Definition keeps_globals {A : Type} (m : M A) : Prop := ∀ g, (m g).1.2 = g.

(** [kw in user_message.lower()] *)
Definition mentions (user_message kw : string) : bool :=
  Text.contains (Text.lower user_message) kw.

Definition status_of (r : result response) : option Z :=
  match r with
  | Ok (Json status _) => Some status
  | _ => None
  end.

(** The [message] entry of a parsed object is missing, or falsy ([null],
    [""], [false], [0], an empty list or object), or a string of white
    space: the cases in which [(data.get("message") or "").strip()] is
    empty. *)
Definition message_blank (d : list (string * pyval)) : Prop :=
  match assoc "message" d with
  | None => True
  | Some v => truthy v = false ∨ ∃ s, v = PStr s ∧ Text.all_space s = true
  end.

(** The field [key] of a parsed body, when the body is an object that has
    one. *)
Definition field_of (data : pyval) (key : string) : option pyval :=
  match data with
  | PDict d => assoc key d
  | _ => None
  end.

(** A body that fails validation as the specification words it: it does
    not parse as JSON, or it parses and its [message] field is missing,
    null, or empty after trimming white space. *)
Definition claimed_invalid (body : option pyval) : Prop :=
  match body with
  | None => True
  | Some data =>
      match field_of data "message" with
      | None => True
      | Some PNone => True
      | Some (PStr s) => Text.strip s = EmptyString
      | Some _ => False
      end
  end.

(** The answer has no direct text: no [text] attribute, or a falsy one
    ([None], [""], ...). *)
Definition no_direct_text (r : py_object) : Prop :=
  assoc "text" (attrs r) = None
  ∨ ∃ v, assoc "text" (attrs r) = Some v ∧ truthy v = false.

(** The answer carries [t] in the nested structure: its [output]
    attribute is a list or tuple whose first element is a dict, whose
    [content] is a list whose first element is a dict with [t] under
    [text]. *)
Definition nested_shape (r : py_object) (t : pyval) : Prop :=
  ∃ d rest i rest',
    (assoc "output" (attrs r) = Some (PList (PDict d :: rest))
     ∨ assoc "output" (attrs r) = Some (PTuple (PDict d :: rest)))
    ∧ assoc "content" d = Some (PList (PDict i :: rest'))
    ∧ assoc "text" i = Some t.

(** Sample hosts, providers and answers. *)
Definition env_of (l : list (string * string)) : gmap string string :=
  list_to_map l.

Definition host_openai_no_lib : host :=
  Host false true true
       (env_of [("CHATBOT_BACKEND", "OpenAI"); ("OPENAI_API_KEY", "sk-1")]).
Definition host_openai_no_key : host :=
  Host true true true (env_of [("CHATBOT_BACKEND", "openai")]).
Definition host_openai_ok : host :=
  Host true false true
       (env_of [("CHATBOT_BACKEND", "OPENAI"); ("OPENAI_API_KEY", "sk-1")]).
Definition host_gemini_no_lib : host :=
  Host true false true
       (env_of [("CHATBOT_BACKEND", "gemini"); ("GEMINI_API_KEY", "g-1")]).
Definition host_gemini_no_key : host :=
  Host true true true
       (env_of [("CHATBOT_BACKEND", "Gemini"); ("GEMINI_API_KEY", "")]).
Definition host_gemini_ok : host :=
  Host false true false
       (env_of [("CHATBOT_BACKEND", "GEMINI"); ("GEMINI_API_KEY", "g-1")]).
Definition host_unknown : host :=
  Host true true true
       (env_of [("CHATBOT_BACKEND", "Claude"); ("OPENAI_API_KEY", "sk-1");
                ("GEMINI_API_KEY", "g-1")]).
Definition host_default : host := Host true true true ∅.

Definition timeout_error : exn := Exn (ProviderError "Timeout") "request timed out".

Definition providers_down : providers :=
  Providers (λ _, Raise timeout_error) (λ _, Raise timeout_error).

Definition nested_answer : py_object :=
  PyObject
    [("output",
      PList [PDict [("content", PList [PDict [("text", PStr "Read chapter 3.")]])]])]
    "<response>".

Definition shapeless_answer : py_object :=
  PyObject [("text", PNone); ("candidates", PList [])] "text=None candidates=[]".

Definition hi_body : option pyval := Some (PDict [("message", PStr "hi")]).

(** An answer whose nested text is [None], and an object whose [str] is
    empty. *)
Definition null_text_answer : py_object :=
  PyObject
    [("output", PList [PDict [("content", PList [PDict [("text", PNone)]])]])]
    "<response>".

Definition silent_answer : py_object := PyObject [] "".

(** ** Vocabulary of the further properties *)

(** The outbound calls and the log records of a trace. *)
Definition is_call (e : event) : bool :=
  match e with Log _ _ _ => false | _ => true end.

Definition calls (ev : list event) : list event := filter is_call ev.

Definition logs (ev : list event) : list event :=
  filter (λ e, negb (is_call e)) ev.

(** The messages logged at level [WARNING]. *)
Fixpoint warnings (ev : list event) : list string :=
  match ev with
  | [] => []
  | Log WARNING msg _ :: ev' => msg :: warnings ev'
  | _ :: ev' => warnings ev'
  end.

(** Lines 122-123 on their own: [resp["choices"][0]["message"]["content"].strip()] *)
Definition completion_text (resp : pyval) : result string :=
  match getitem_str resp "choices" with
  | Raise e => Raise e
  | Ok choices =>
      match getitem_0 choices with
      | Raise e => Raise e
      | Ok choice =>
          match getitem_str choice "message" with
          | Raise e => Raise e
          | Ok message =>
              match getitem_str message "content" with
              | Raise e => Raise e
              | Ok content => method_strip content
              end
          end
      end
  end.

(** A completion of the documented shape: a dict whose [choices] is a
    list or tuple starting with a dict whose [message] is a dict with a
    [content] entry [v]. *)
Definition completion_content (resp : pyval) (v : pyval) : Prop :=
  ∃ d ch rest md,
    resp = PDict d
    ∧ (assoc "choices" d = Some (PList (PDict ch :: rest))
       ∨ assoc "choices" d = Some (PTuple (PDict ch :: rest)))
    ∧ assoc "message" ch = Some (PDict md)
    ∧ assoc "content" md = Some v.

(** The same, with the string [c] as content. *)
Definition completion_with (resp : pyval) (c : string) : Prop :=
  completion_content resp (PStr c).

(** A parsed body [{"message": s}]. *)
Definition message_body (s : string) : option pyval :=
  Some (PDict [("message", PStr s)]).

Definition good_completion : pyval :=
  PDict [("id", PStr "cmpl-1");
         ("choices",
          PList [PDict [("index", PInt 0);
                        ("message",
                         PDict [("role", PStr "assistant");
                                ("content", PStr "  Start with chapter 2.  ")])]])].

Definition providers_up : providers :=
  Providers (λ _, Ok good_completion)
            (λ _, Ok (PyObject [("text", PStr " Try the labs page. ")] "<response>")).

Definition providers_empty_choices : providers :=
  Providers (λ _, Ok (PDict [("choices", PList [])]))
            (λ _, Ok (PyObject [("output", PList [PDict [("content", PTuple [PDict [("text", PStr "t")]])]])] "<response>")).

Definition host_both_missing : host :=
  Host false false true (env_of [("CHATBOT_BACKEND", "openai")]).

Definition host_gemini_models : host :=
  Host true true true
       (env_of [("CHATBOT_BACKEND", "gemini"); ("GEMINI_API_KEY", "g-1");
                ("GEMINI_MODEL", "gemini-pro"); ("OPENAI_MODEL", "")]).

(** The four warnings of the start-up script. *)
Definition warn_openai_library : string :=
  "OpenAI library not installed; OpenAI backend won't work unless you install `openai`.".
Definition warn_openai_key : string :=
  "OPENAI_API_KEY not found; falling back to simple backend.".
Definition warn_gemini_library : string :=
  "google-genai not installed; Gemini backend won't work unless you install `google-genai`.".
Definition warn_gemini_key : string :=
  "GEMINI_API_KEY not found; falling back to simple backend.".

(** * Properties *)

(** ** The text builtins *)

Module TextFacts.
Import Text.

Lemma app_nil (t : string) : EmptyString +:+ t = t.
Proof. reflexivity. Qed.

Lemma app_cons (c : ascii) (s t : string) :
  String c s +:+ t = String c (s +:+ t).
Proof. reflexivity. Qed.

Lemma app_assoc_s (a b c : string) : (a +:+ b) +:+ c = a +:+ b +:+ c.
Proof.
  induction a as [|x a IH]; [reflexivity|].
  rewrite !app_cons, IH. reflexivity.
Qed.

Lemma starts_with_app (p b : string) : starts_with p (p +:+ b) = true.
Proof.
  induction p as [|c p IH]; [reflexivity|].
  rewrite app_cons. simpl. rewrite Ascii.eqb_refl. exact IH.
Qed.

Lemma starts_with_inv (p s : string) :
  starts_with p s = true → ∃ b, s = p +:+ b.
Proof.
  revert s. induction p as [|c p IH]; intros s H.
  - exists s. reflexivity.
  - destruct s as [|d s]; [discriminate|].
    simpl in H. apply andb_true_iff in H as [Hc Hs].
    apply Ascii.eqb_eq in Hc. subst d.
    destruct (IH s Hs) as [b ->]. exists b. reflexivity.
Qed.

(** [contains] is the substring test: [needle in hay] holds exactly when
    [hay] splits around an occurrence of [needle]. *)
Lemma contains_split (hay needle : string) :
  contains hay needle = true ↔ ∃ a b, hay = a +:+ needle +:+ b.
Proof.
  split.
  - induction hay as [|c hay IH]; simpl; intros H.
    + rewrite orb_false_r in H. apply starts_with_inv in H as [b ->].
      exists EmptyString, b. reflexivity.
    + apply orb_true_iff in H as [H|H].
      * apply starts_with_inv in H as [b ->].
        exists EmptyString, b. reflexivity.
      * destruct (IH H) as (a & b & ->).
        exists (String c a), b. reflexivity.
  - intros (a & b & ->). induction a as [|c a IH].
    + rewrite app_nil.
      destruct (needle +:+ b) eqn:E; simpl; rewrite <- E;
        rewrite starts_with_app; reflexivity.
    + rewrite app_cons. simpl. rewrite IH. apply orb_true_r.
Qed.

(** A text that contains [kw] contains every piece of [kw]. *)
Lemma contains_piece (hay p kw q : string) :
  contains hay (p +:+ kw +:+ q) = true → contains hay kw = true.
Proof.
  intros (a & b & ->)%contains_split.
  apply contains_split. exists (a +:+ p), (q +:+ b).
  rewrite !app_assoc_s. reflexivity.
Qed.

(** Induction on the length of a text, for the functions that read more
    than one byte at a step. *)
Lemma length_ind (P : string → Prop) :
  (∀ s, (∀ r, (String.length r < String.length s)%nat → P r) → P s) →
  ∀ s, P s.
Proof.
  intros step s.
  assert (H : ∀ n r, (String.length r < n)%nat → P r).
  { induction n as [|n IH]; intros r Hr; [lia|].
    apply step. intros r' Hr'. apply IH. lia. }
  apply (H (S (String.length s))). lia.
Qed.

(** *** Lower case *)

Lemma lower_eq (s : string) :
  lower s =
    match lower_special s with
    | Some (p, r) => p +:+ lower r
    | None =>
        match s with
        | EmptyString => EmptyString
        | String c t => String (lower_char c) (lower t)
        end
    end.
Proof.
  destruct s as [|c [|d [|e t]]]; try reflexivity; simpl.
  - destruct (byte_is c 196 && byte_is d 176)%bool; reflexivity.
  - destruct (byte_is c 196 && byte_is d 176)%bool; [reflexivity|].
    destruct (byte_is c 226 && byte_is d 132 && byte_is e 170)%bool;
      reflexivity.
Qed.

Lemma lower_special_length (s p r : string) :
  lower_special s = Some (p, r) → (String.length r < String.length s)%nat.
Proof.
  destruct s as [|c [|d [|e t]]]; simpl; try discriminate.
  - destruct (_ && _)%bool; [intros [= _ <-]; simpl; lia | discriminate].
  - destruct (byte_is c 196 && byte_is d 176)%bool;
      [intros [= _ <-]; simpl; lia|].
    destruct (_ && _)%bool; [intros [= _ <-]; simpl; lia | discriminate].
Qed.

Lemma lower_special_out (s p r : string) :
  lower_special s = Some (p, r) →
  p = dotted_i ∨ p = String "k"%char EmptyString.
Proof.
  destruct s as [|c [|d [|e t]]]; simpl; try discriminate.
  - destruct (_ && _)%bool; [intros [= <- _]; auto | discriminate].
  - destruct (byte_is c 196 && byte_is d 176)%bool; [intros [= <- _]; auto|].
    destruct (_ && _)%bool; [intros [= <- _]; auto | discriminate].
Qed.

Lemma lower_char_idem (c : ascii) : lower_char (lower_char c) = lower_char c.
Proof. destruct c as [[] [] [] [] [] [] [] []]; reflexivity. Qed.

Lemma lower_upper_char (c : ascii) : lower_char (upper_char c) = lower_char c.
Proof. destruct c as [[] [] [] [] [] [] [] []]; reflexivity. Qed.

(** Changing the case of an ASCII letter leaves the lead and continuation
    bytes of the two special characters as they are. *)
Lemma variant_bytes (c d : ascii) :
  d = c ∨ d = upper_char c ∨ d = lower_char c →
  lower_char d = lower_char c
  ∧ byte_is d 196 = byte_is c 196 ∧ byte_is d 176 = byte_is c 176
  ∧ byte_is d 226 = byte_is c 226 ∧ byte_is d 132 = byte_is c 132
  ∧ byte_is d 170 = byte_is c 170.
Proof.
  intros [-> | [-> | ->]]; [repeat split| |];
    destruct c as [[] [] [] [] [] [] [] []]; repeat split.
Qed.

Lemma lower_same_up_to_case (s t : string) :
  same_up_to_case s t → lower s = lower t.
Proof.
  revert t. induction s as [s IH] using length_ind. intros t H.
  destruct H as [|c d s t Hc H]; [reflexivity|].
  destruct (variant_bytes c d Hc) as (Hl & H196 & _ & H226 & _ & _).
  destruct H as [|c2 d2 s2 t2 Hc2 H2].
  { simpl. rewrite Hl. reflexivity. }
  destruct (variant_bytes c2 d2 Hc2) as (Hl2 & _ & H176 & _ & H132 & _).
  assert (IHt : lower (String c2 s2) = lower (String d2 t2)).
  { apply IH; [simpl; lia|]. constructor; assumption. }
  destruct H2 as [|c3 d3 s3 t3 Hc3 H3].
  { simpl. rewrite H196, H176, Hl, Hl2.
    destruct (byte_is c 196 && byte_is c2 176)%bool; reflexivity. }
  destruct (variant_bytes c3 d3 Hc3) as (Hl3 & _ & _ & _ & _ & H170).
  assert (IH2 : lower (String c3 s3) = lower (String d3 t3)).
  { apply IH; [simpl; lia|]. constructor; assumption. }
  assert (IH3 : lower s3 = lower t3) by (apply IH; [simpl; lia | exact H3]).
  rewrite (lower_eq (String c _)), (lower_eq (String d _)).
  unfold lower_special.
  rewrite H196, H176, H226, H132, H170, Hl.
  destruct (byte_is c 196 && byte_is c2 176)%bool; [rewrite IH2; reflexivity|].
  destruct (byte_is c 226 && byte_is c2 132 && byte_is c3 170)%bool;
    [rewrite IH3 | rewrite IHt]; reflexivity.
Qed.

Lemma ascii_not_high (c : ascii) :
  is_ascii_char c = true →
  byte_is c 196 = false ∧ byte_is c 176 = false ∧ byte_is c 226 = false
  ∧ byte_is c 132 = false ∧ byte_is c 170 = false
  ∧ is_ascii_char (lower_char c) = true.
Proof.
  destruct c as [[] [] [] [] [] [] [] []]; try discriminate; repeat split.
Qed.

Lemma lower_char_ascii (c : ascii) :
  is_ascii_char (lower_char c) = true → is_ascii_char c = true.
Proof. destruct c as [[] [] [] [] [] [] [] []]; intros H; exact H. Qed.

Lemma lower_special_ascii (c : ascii) (t : string) :
  is_ascii_char c = true → lower_special (String c t) = None.
Proof.
  intros Hc. destruct (ascii_not_high c Hc) as (H196 & _ & H226 & _).
  destruct t as [|d [|e t]]; simpl; rewrite ?H196, ?H226; reflexivity.
Qed.

(** An ASCII text is lowered byte by byte, whatever follows it. *)
Lemma lower_ascii_app (k b : string) :
  all_chars is_ascii_char k = true →
  lower (k +:+ b) = map_chars lower_char k +:+ lower b.
Proof.
  induction k as [|c k IH]; [reflexivity|].
  intros H. simpl in H. apply andb_true_iff in H as [Hc Hk].
  change (map_chars lower_char (String c k))
    with (String (lower_char c) (map_chars lower_char k)).
  rewrite !app_cons.
  rewrite (lower_eq (String c _)), (lower_special_ascii c _ Hc).
  rewrite IH by exact Hk. reflexivity.
Qed.

(** In front of an ASCII byte, the special characters of a text are the
    ones it has on its own. *)
Lemma lower_special_app (c : ascii) (a : string) (x : ascii) (z : string) :
  is_ascii_char x = true →
  lower_special (String c a +:+ String x z) =
    match lower_special (String c a) with
    | Some (p, r) => Some (p, r +:+ String x z)
    | None => None
    end.
Proof.
  intros Hx. destruct (ascii_not_high x Hx) as (_ & H176 & _ & H132 & H170 & _).
  destruct a as [|d [|e a]]; simpl.
  - rewrite H176, H132, !andb_false_r. destruct z; reflexivity.
  - destruct (byte_is c 196 && byte_is d 176)%bool; [reflexivity|].
    rewrite H170, andb_false_r. reflexivity.
  - destruct (byte_is c 196 && byte_is d 176)%bool; [reflexivity|].
    destruct (byte_is c 226 && byte_is d 132 && byte_is e 170)%bool;
      reflexivity.
Qed.

(** A non-empty run of ASCII inside a text is lowered byte by byte and
    stays in one piece. *)
Lemma lower_around_ascii (a k b : string) :
  all_chars is_ascii_char k = true → k ≠ EmptyString →
  ∃ a', lower (a +:+ k +:+ b) = a' +:+ map_chars lower_char k +:+ lower b.
Proof.
  intros Hk Hne. induction a as [a IH] using length_ind.
  destruct a as [|c a].
  - exists EmptyString. rewrite !app_nil. apply lower_ascii_app, Hk.
  - destruct k as [|x k]; [contradiction|].
    simpl in Hk. apply andb_true_iff in Hk as [Hx Hk'].
    rewrite lower_eq. rewrite !app_cons, <- app_cons.
    rewrite (lower_special_app c a x (k +:+ b) Hx).
    destruct (lower_special (String c a)) as [[p r]|] eqn:Es.
    + destruct (IH r (lower_special_length _ _ _ Es)) as [a' Ha'].
      exists (p +:+ a'). rewrite app_assoc_s.
      rewrite <- Ha'. rewrite app_cons. reflexivity.
    + destruct (IH a) as [a' Ha']; [simpl; lia|].
      exists (String (lower_char c) a'). rewrite !app_cons.
      rewrite app_cons in Ha'. rewrite <- Ha'. reflexivity.
Qed.

(** A text lowered to ASCII without "k" was ASCII, lowered byte by byte. *)
Lemma lower_ascii_inv (k w : string) :
  lower k = w →
  all_chars (λ c, is_ascii_char c && negb (byte_is c 107))%bool w = true →
  all_chars is_ascii_char k = true ∧ map_chars lower_char k = w.
Proof.
  revert w. induction k as [k IH] using length_ind. intros w Hw Ha.
  rewrite lower_eq in Hw.
  destruct (lower_special k) as [[p r]|] eqn:Es.
  - subst w. apply lower_special_out in Es as [-> | ->]; discriminate Ha.
  - destruct k as [|c k]; [subst w; split; reflexivity|].
    subst w. simpl in Ha.
    apply andb_true_iff in Ha as [[Hc _]%andb_true_iff Ha].
    destruct (IH k) with (w := lower k) as [Hk Hm];
      [simpl; lia | reflexivity | exact Ha |].
    simpl. rewrite (lower_char_ascii c Hc), Hk, Hm. split; reflexivity.
Qed.

(** *** White space *)

Lemma space_at_length (s r : string) :
  space_at s = Some r → (String.length r < String.length s)%nat.
Proof.
  destruct s as [|c [|d [|e t]]]; simpl; try discriminate.
  - destruct (is_space c); [intros [= <-]; simpl; lia | discriminate].
  - destruct (is_space c); [intros [= <-]; simpl; lia|].
    destruct (is_space2 c d); [intros [= <-]; simpl; lia | discriminate].
  - destruct (is_space c); [intros [= <-]; simpl; lia|].
    destruct (is_space2 c d); [intros [= <-]; simpl; lia|].
    destruct (is_space3 c d e); [intros [= <-]; simpl; lia | discriminate].
Qed.

Lemma lstrip_eq (s : string) :
  lstrip s = match space_at s with Some r => lstrip r | None => s end.
Proof.
  destruct s as [|c [|d [|e t]]]; try reflexivity; simpl.
  - destruct (is_space c); reflexivity.
  - destruct (is_space c); [reflexivity|].
    destruct (is_space2 c d); reflexivity.
  - destruct (is_space c); [reflexivity|].
    destruct (is_space2 c d); [reflexivity|].
    destruct (is_space3 c d e); reflexivity.
Qed.

Lemma all_space_eq (s : string) :
  all_space s =
    match space_at s with Some r => all_space r | None => is_empty s end.
Proof.
  destruct s as [|c [|d [|e t]]]; try reflexivity; simpl.
  - destruct (is_space c); reflexivity.
  - destruct (is_space c); [reflexivity|].
    destruct (is_space2 c d); reflexivity.
  - destruct (is_space c); [reflexivity|].
    destruct (is_space2 c d); [reflexivity|].
    destruct (is_space3 c d e); reflexivity.
Qed.

Lemma is_empty_true (s : string) : is_empty s = true ↔ s = EmptyString.
Proof. destruct s; simpl; split; congruence. Qed.

Lemma space_at_app (s r w : string) :
  space_at s = Some r → space_at (s +:+ w) = Some (r +:+ w).
Proof.
  destruct s as [|c [|d [|e t]]]; simpl; try discriminate.
  - destruct (is_space c); [intros [= <-]; reflexivity | discriminate].
  - destruct (is_space c); [intros [= <-]; reflexivity|].
    destruct (is_space2 c d); [intros [= <-]; reflexivity | discriminate].
  - destruct (is_space c); [intros [= <-]; reflexivity|].
    destruct (is_space2 c d); [intros [= <-]; reflexivity|].
    destruct (is_space3 c d e); [intros [= <-]; reflexivity | discriminate].
Qed.

Lemma lstrip_all_space (s : string) :
  all_space s = true → lstrip s = EmptyString.
Proof.
  induction s as [s IH] using length_ind.
  rewrite all_space_eq, lstrip_eq.
  destruct (space_at s) as [r|] eqn:E.
  - intros H. apply IH; [apply space_at_length, E | exact H].
  - intros H. apply is_empty_true, H.
Qed.

Lemma lstrip_empty (s : string) :
  lstrip s = EmptyString → all_space s = true.
Proof.
  induction s as [s IH] using length_ind.
  rewrite all_space_eq, lstrip_eq.
  destruct (space_at s) as [r|] eqn:E.
  - intros H. apply IH; [apply space_at_length, E | exact H].
  - intros ->. reflexivity.
Qed.

Lemma all_space_lstrip (s : string) :
  all_space (lstrip s) = true → all_space s = true.
Proof.
  induction s as [s IH] using length_ind.
  rewrite (all_space_eq s), lstrip_eq.
  destruct (space_at s) as [r|] eqn:E.
  - intros H. apply IH; [apply space_at_length, E | exact H].
  - rewrite all_space_eq, E. trivial.
Qed.

(** [lstrip] leaves no white space at the front. *)
Lemma lstrip_no_space (s : string) : space_at (lstrip s) = None.
Proof.
  induction s as [s IH] using length_ind.
  rewrite lstrip_eq. destruct (space_at s) as [r|] eqn:E.
  - apply IH, space_at_length, E.
  - exact E.
Qed.

Lemma all_space_app (s w : string) :
  all_space s = true → all_space w = true → all_space (s +:+ w) = true.
Proof.
  intros Hs Hw. induction s as [s IH] using length_ind.
  rewrite all_space_eq in Hs.
  destruct (space_at s) as [r|] eqn:E.
  - rewrite all_space_eq, (space_at_app s r w E).
    apply IH; [apply space_at_length, E | exact Hs].
  - apply is_empty_true in Hs. subst s. exact Hw.
Qed.

Lemma rstrip_empty (s : string) :
  is_empty (rstrip s) = true → all_space s = true.
Proof.
  destruct s as [|c t]; [reflexivity|].
  change (rstrip (String c t))
    with (if all_space (String c t) then EmptyString
          else String c (rstrip t)).
  destruct (all_space (String c t)); [reflexivity | discriminate].
Qed.

Lemma rstrip_cons (c : ascii) (t : string) :
  rstrip (String c t) =
    if all_space (String c t) then EmptyString else String c (rstrip t).
Proof. reflexivity. Qed.

(** What [rstrip] cuts off is white space. *)
Lemma rstrip_split (s : string) :
  ∃ w, s = rstrip s +:+ w ∧ all_space w = true.
Proof.
  induction s as [|c t IH]; [exists EmptyString; split; reflexivity|].
  rewrite rstrip_cons. destruct (all_space (String c t)) eqn:E.
  - exists (String c t). split; [reflexivity | exact E].
  - destruct IH as (w & Hw & Ha). exists w.
    rewrite app_cons, <- Hw. split; [reflexivity | exact Ha].
Qed.

Lemma rstrip_idem (s : string) : rstrip (rstrip s) = rstrip s.
Proof.
  induction s as [|c t IH]; [reflexivity|].
  rewrite rstrip_cons. destruct (all_space (String c t)) eqn:E; [reflexivity|].
  rewrite rstrip_cons, IH.
  destruct (all_space (String c (rstrip t))) eqn:E'; [|reflexivity].
  destruct (rstrip_split t) as (w & Hw & Ha).
  pose proof (all_space_app _ w E' Ha) as H.
  rewrite app_cons, <- Hw, E in H. discriminate H.
Qed.

(** [rstrip] brings no white space to the front of a text that has none
    there. *)
Lemma rstrip_no_space (s : string) :
  space_at s = None → space_at (rstrip s) = None.
Proof.
  intros Hs. destruct (space_at (rstrip s)) as [r|] eqn:E; [|reflexivity].
  destruct (rstrip_split s) as (w & Hw & _).
  pose proof (space_at_app _ r w E) as H.
  rewrite <- Hw, Hs in H. discriminate H.
Qed.

(** [s.strip()] is empty exactly when [s] is white space throughout. *)
Lemma strip_empty (s : string) :
  is_empty (strip s) = true ↔ all_space s = true.
Proof.
  unfold strip. split.
  - intros H. apply all_space_lstrip, rstrip_empty, H.
  - intros H. rewrite lstrip_all_space by exact H. reflexivity.
Qed.

(** Trimming twice is trimming once. *)
Lemma strip_idem (s : string) : strip (strip s) = strip s.
Proof.
  unfold strip.
  rewrite (lstrip_eq (rstrip (lstrip s))).
  rewrite (rstrip_no_space _ (lstrip_no_space s)).
  apply rstrip_idem.
Qed.

End TextFacts.

(** ** Start-up *)

Section Startup.

Variable h : host.

Lemma startup_globals :
  (startup h).1 = (init_gemini h (init_openai (after_imports h)).1).1.
Proof.
  unfold startup. destruct (init_openai _) as [g1 ev1]. simpl.
  destruct (init_gemini h g1) as [g2 ev2]. reflexivity.
Qed.

Lemma init_openai_BACKEND (g : globals) :
  BACKEND (init_openai g).1 =
    if String.eqb (BACKEND g) "openai" then
      if (_openai_available g
          && negb (key_missing (os_environ g !! "OPENAI_API_KEY")))%bool
      then "openai" else "simple"
    else BACKEND g.
Proof.
  unfold init_openai, getenv. simpl.
  destruct (String.eqb (BACKEND g) "openai") eqn:Ea; [|reflexivity].
  apply String.eqb_eq in Ea.
  destruct (_openai_available g); simpl; [|reflexivity].
  destruct (key_missing _); simpl; [reflexivity | exact Ea].
Qed.

Lemma init_openai_frame (g : globals) :
  os_environ (init_openai g).1 = os_environ g
  ∧ _gemini_available (init_openai g).1 = _gemini_available g.
Proof.
  unfold init_openai. simpl.
  destruct (String.eqb (BACKEND g) "openai"); [|split; reflexivity].
  destruct (_openai_available g); simpl; [|split; reflexivity].
  destruct (key_missing _); split; reflexivity.
Qed.

Lemma init_gemini_BACKEND (g : globals) :
  BACKEND (init_gemini h g).1 =
    if String.eqb (BACKEND g) "gemini" then
      if (_gemini_available g
          && negb (key_missing (os_environ g !! "GEMINI_API_KEY")))%bool
      then "gemini" else "simple"
    else BACKEND g.
Proof.
  unfold init_gemini, getenv. simpl.
  destruct (String.eqb (BACKEND g) "gemini") eqn:Eb; [|reflexivity].
  apply String.eqb_eq in Eb.
  destruct (_gemini_available g); simpl; [|reflexivity].
  destruct (os_environ g !! "GEMINI_API_KEY") as [key|]; simpl;
    [|reflexivity].
  destruct (Text.is_empty key); simpl; [reflexivity | exact Eb].
Qed.

Lemma startup_BACKEND :
  resolved h =
    if String.eqb (requested h) "openai" then
      if openai_ready h then "openai" else "simple"
    else if String.eqb (requested h) "gemini" then
      if gemini_ready h then "gemini" else "simple"
    else requested h.
Proof.
  unfold resolved. rewrite startup_globals, init_gemini_BACKEND.
  destruct (init_openai_frame (after_imports h)) as [-> ->].
  rewrite init_openai_BACKEND.
  change (BACKEND (after_imports h)) with (requested h).
  change (_openai_available (after_imports h)
          && negb (key_missing (os_environ (after_imports h) !! "OPENAI_API_KEY")))%bool
    with (openai_ready h).
  change (_gemini_available (after_imports h)
          && negb (key_missing (os_environ (after_imports h) !! "GEMINI_API_KEY")))%bool
    with (gemini_ready h).
  destruct (String.eqb (requested h) "openai"); [|reflexivity].
  destruct (openai_ready h); reflexivity.
Qed.

Lemma startup_kind :
  resolved_kind h =
    if String.eqb (requested h) "openai" then
      if openai_ready h then ProviderA else Local
    else if String.eqb (requested h) "gemini" then
      if gemini_ready h then ProviderB else Local
    else Local.
Proof.
  unfold resolved_kind. rewrite startup_BACKEND. unfold backend_kind.
  destruct (String.eqb (requested h) "openai") eqn:Ea.
  - destruct (openai_ready h); reflexivity.
  - destruct (String.eqb (requested h) "gemini") eqn:Eb.
    + destruct (gemini_ready h); reflexivity.
    + rewrite Ea, Eb. reflexivity.
Qed.

End Startup.

(** ** Request handling leaves the globals alone *)

Section Keeps.

Context {A B : Type}.

Lemma keeps_ret (a : A) : keeps_globals (mret a).
Proof. intros g. reflexivity. Qed.

Lemma keeps_raise (e : exn) : keeps_globals (@raise A e).
Proof. intros g. reflexivity. Qed.

Lemma keeps_lift (r : result A) : keeps_globals (lift r).
Proof. intros g. reflexivity. Qed.

Lemma keeps_read (f : globals → A) : keeps_globals (read f).
Proof. intros g. reflexivity. Qed.

Lemma keeps_bind (m : M A) (k : A → M B) :
  keeps_globals m → (∀ a, keeps_globals (k a)) → keeps_globals (m ≫= k).
Proof.
  intros Hm Hk g. unfold mbind, M_bind. specialize (Hm g).
  destruct (m g) as [[[a|e] g'] ev]; simpl in Hm; subst g'; [|reflexivity].
  specialize (Hk a g). destruct (k a g) as [[r g''] ev']. exact Hk.
Qed.

Lemma keeps_try (m : M A) (hd : exn → M A) :
  keeps_globals m → (∀ e, keeps_globals (hd e)) →
  keeps_globals (try_except m hd).
Proof.
  intros Hm Hh g. unfold try_except. specialize (Hm g).
  destruct (m g) as [[[a|e] g'] ev]; simpl in Hm; subst g'; [reflexivity|].
  specialize (Hh e g). destruct (hd e g) as [[r g''] ev']. exact Hh.
Qed.

End Keeps.

Lemma keeps_emit (e : event) : keeps_globals (emit e).
Proof. intros g. reflexivity. Qed.

Ltac keeps_step :=
  first
    [ apply keeps_ret | apply keeps_raise | apply keeps_lift
    | apply keeps_read | apply keeps_emit
    | apply keeps_try | apply keeps_bind
    | match goal with
      | |- keeps_globals (if ?b then _ else _) => destruct b
      | |- keeps_globals (match ?x with _ => _ end) => destruct x
      end
    | intro ].

Lemma get_bot_reply_openai_keeps (w : providers) (m : string) :
  keeps_globals (get_bot_reply_openai w m).
Proof. unfold get_bot_reply_openai, logging_exception. repeat keeps_step. Qed.

Lemma get_bot_reply_gemini_keeps (w : providers) (m : string) :
  keeps_globals (get_bot_reply_gemini w m).
Proof. unfold get_bot_reply_gemini, logging_exception. repeat keeps_step. Qed.

Lemma dispatch_keeps (w : providers) (m : string) :
  keeps_globals (dispatch w m).
Proof.
  unfold dispatch.
  repeat first
    [ apply get_bot_reply_openai_keeps | apply get_bot_reply_gemini_keeps
    | keeps_step ].
Qed.

Lemma get_response_keeps (w : providers) (body : option pyval) :
  keeps_globals (get_response w body).
Proof.
  unfold get_response, logging_exception.
  repeat first [ apply dispatch_keeps | keeps_step ].
Qed.

Lemma serve_keeps (w : providers) (r : request) : keeps_globals (serve w r).
Proof.
  destruct r; simpl; try (intros g; reflexivity). apply get_response_keeps.
Qed.

Lemma run_keeps (g : globals) (rs : list (providers * request)) :
  run g rs = g.
Proof.
  revert g. induction rs as [|[w r] rs IH]; intros g; simpl; [reflexivity|].
  rewrite serve_keeps. apply IH.
Qed.

(** ** The view, step by step *)

Section ViewFacts.

Variable w : providers.

Lemma dispatch_local (m : string) (g : globals) :
  backend_kind (BACKEND g) = Local →
  dispatch w m g = (Ok (PStr (get_bot_reply_simple m)), g, []).
Proof.
  unfold backend_kind, dispatch, mbind, M_bind, read. simpl.
  destruct (String.eqb (BACKEND g) "openai"); [discriminate|].
  destruct (String.eqb (BACKEND g) "gemini"); [discriminate|].
  reflexivity.
Qed.

(** What [get_response] does with a parsed body, in terms of the message
    read at line 168 and of the outcome of the dispatch. *)
Lemma get_response_parsed (data : pyval) (g : globals) :
  get_response w (Some data) g =
    match user_message_of data with
    | Raise e => (Raise e, g, [])
    | Ok user_message =>
        if Text.is_empty user_message then
          (Ok (Json 400 (error_body "No message provided")), g, [])
        else
          match dispatch w user_message g with
          | (Ok reply, g', ev) => (Ok (Json 200 (reply_body reply)), g', ev)
          | (Raise e, g', ev) =>
              (Ok (Json 500 (error_body (exn_str e))), g',
               ev ++ [Log ERROR "Error while generating reply" (Some e)])
          end
    end.
Proof.
  unfold get_response, mbind, M_bind, lift, try_except, logging_exception,
    emit, mret, M_ret.
  destruct (user_message_of data) as [um|e]; [|reflexivity].
  destruct (Text.is_empty um); [reflexivity|]. simpl.
  destruct (dispatch w um g) as [[[reply|e] g'] ev]; simpl.
  - rewrite app_nil_r. reflexivity.
  - reflexivity.
Qed.

Lemma get_bot_reply_openai_fails (m : string) (g : globals) (e : exn) :
  _openai_available g = true →
  ChatCompletion_create w (chat_request_for (OPENAI_MODEL g) m) = Raise e →
  get_bot_reply_openai w m g =
    (Raise e, g,
     [CallOpenAI (chat_request_for (OPENAI_MODEL g) m);
      Log ERROR "OpenAI call failed" (Some e)]).
Proof.
  intros Ha Hc.
  unfold get_bot_reply_openai, mbind, M_bind, lift, try_except,
    logging_exception, emit, read, raise. simpl.
  rewrite Ha. simpl. rewrite Hc. reflexivity.
Qed.

Lemma get_bot_reply_gemini_fails (m : string) (g : globals)
    (client : genai_Client) (e : exn) :
  genai_client g = Some client →
  _gemini_available g = true →
  generate_content w (generate_request_for client (GEMINI_MODEL g) m)
    = Raise e →
  get_bot_reply_gemini w m g =
    (Raise e, g,
     [CallGemini (generate_request_for client (GEMINI_MODEL g) m);
      Log ERROR "Gemini call failed" (Some e)]).
Proof.
  intros Hb Ha Hc.
  unfold get_bot_reply_gemini, mbind, M_bind, lift, try_except,
    logging_exception, emit, read, raise. simpl.
  rewrite Hb. simpl. rewrite Ha. simpl. rewrite Hc. reflexivity.
Qed.

Lemma get_bot_reply_gemini_answers (m : string) (g : globals)
    (client : genai_Client) (response : py_object) :
  genai_client g = Some client →
  _gemini_available g = true →
  generate_content w (generate_request_for client (GEMINI_MODEL g) m)
    = Ok response →
  get_bot_reply_gemini w m g =
    (Ok (gemini_reply_of response), g,
     [CallGemini (generate_request_for client (GEMINI_MODEL g) m)]).
Proof.
  intros Hb Ha Hc.
  unfold get_bot_reply_gemini, mbind, M_bind, lift, try_except,
    logging_exception, emit, read, raise. simpl.
  rewrite Hb. simpl. rewrite Ha. simpl. rewrite Hc. reflexivity.
Qed.

Lemma dispatch_openai (m : string) (g : globals) :
  BACKEND g = "openai" →
  dispatch w m g =
    match get_bot_reply_openai w m g with
    | (Ok reply, g', ev) => (Ok (PStr reply), g', ev)
    | (Raise e, g', ev) => (Raise e, g', ev)
    end.
Proof.
  intros Hb. unfold dispatch, mbind, M_bind, read at 1. simpl.
  rewrite Hb. simpl.
  destruct (get_bot_reply_openai w m g) as [[[reply|e] g'] ev]; simpl;
    [rewrite app_nil_r|]; reflexivity.
Qed.

Lemma dispatch_gemini (m : string) (g : globals) :
  BACKEND g = "gemini" →
  dispatch w m g = get_bot_reply_gemini w m g.
Proof.
  intros Hb. unfold dispatch, mbind, M_bind, read at 1. simpl.
  rewrite Hb. simpl.
  destruct (get_bot_reply_gemini w m g) as [[r g'] ev]. reflexivity.
Qed.

End ViewFacts.

(** ** Backend selection *)

(** C1 — the resolve truth table.  When [openai] is asked for: without the
    library the backend is [simple] (Local), whatever the credential; with
    the library and a missing or empty [OPENAI_API_KEY] it is [simple];
    with the library and a non-empty key it is [openai] (ProviderA).  The
    same three cases hold for [gemini] (ProviderB) with [google-genai] and
    [GEMINI_API_KEY]. *)
Theorem C1_resolve_truth_table (h : host) :
  (requested h = "openai" → openai_importable h = false →
     resolved h = "simple" ∧ resolved_kind h = Local)
  ∧ (requested h = "openai" → openai_importable h = true →
     key_missing (getenv (environ h) "OPENAI_API_KEY") = true →
     resolved h = "simple" ∧ resolved_kind h = Local)
  ∧ (requested h = "openai" → openai_importable h = true →
     key_missing (getenv (environ h) "OPENAI_API_KEY") = false →
     resolved h = "openai" ∧ resolved_kind h = ProviderA)
  ∧ (requested h = "gemini" → genai_importable h = false →
     resolved h = "simple" ∧ resolved_kind h = Local)
  ∧ (requested h = "gemini" → genai_importable h = true →
     key_missing (getenv (environ h) "GEMINI_API_KEY") = true →
     resolved h = "simple" ∧ resolved_kind h = Local)
  ∧ (requested h = "gemini" → genai_importable h = true →
     key_missing (getenv (environ h) "GEMINI_API_KEY") = false →
     resolved h = "gemini" ∧ resolved_kind h = ProviderB).
Proof.
  rewrite startup_kind, startup_BACKEND. unfold openai_ready, gemini_ready.
  repeat apply conj; intros Hr Hl; try intros Hk; rewrite Hr, Hl;
    try rewrite Hk; split; reflexivity.
Qed.

Lemma C1_resolve_truth_table_witness :
  resolved_kind host_openai_no_lib = Local
  ∧ resolved_kind host_openai_no_key = Local
  ∧ resolved_kind host_openai_ok = ProviderA
  ∧ resolved_kind host_gemini_no_lib = Local
  ∧ resolved_kind host_gemini_no_key = Local
  ∧ resolved_kind host_gemini_ok = ProviderB.
Proof.
  repeat apply conj.
  - destruct (C1_resolve_truth_table host_openai_no_lib) as (H & _).
    apply H; reflexivity.
  - destruct (C1_resolve_truth_table host_openai_no_key) as (_ & H & _).
    apply H; reflexivity.
  - destruct (C1_resolve_truth_table host_openai_ok) as (_ & _ & H & _).
    apply H; reflexivity.
  - destruct (C1_resolve_truth_table host_gemini_no_lib) as (_ & _ & _ & H & _).
    apply H; reflexivity.
  - destruct (C1_resolve_truth_table host_gemini_no_key)
      as (_ & _ & _ & _ & H & _).
    apply H; reflexivity.
  - destruct (C1_resolve_truth_table host_gemini_ok)
      as (_ & _ & _ & _ & _ & H).
    apply H; reflexivity.
Defined.

(** C2 — the backend invariant.  After start-up and after any run of
    requests, the backend is ProviderA only if [openai] was asked for, the
    library loaded and the key was non-empty, ProviderB only under the
    matching conditions for [gemini], and Local in every other case; the
    requests leave [BACKEND], and the other globals, as start-up set
    them. *)
Theorem C2_backend_invariant (h : host) (rs : list (providers * request)) :
  let g := run (startup h).1 rs in
  (backend_kind (BACKEND g) = ProviderA ↔
     requested h = "openai" ∧ openai_importable h = true
     ∧ key_missing (getenv (environ h) "OPENAI_API_KEY") = false)
  ∧ (backend_kind (BACKEND g) = ProviderB ↔
     requested h = "gemini" ∧ genai_importable h = true
     ∧ key_missing (getenv (environ h) "GEMINI_API_KEY") = false)
  ∧ (backend_kind (BACKEND g) = Local ↔
     ¬ (requested h = "openai" ∧ openai_ready h = true)
     ∧ ¬ (requested h = "gemini" ∧ gemini_ready h = true))
  ∧ g = (startup h).1.
Proof.
  simpl. rewrite run_keeps. fold (resolved h). fold (resolved_kind h).
  rewrite startup_kind. unfold openai_ready, gemini_ready.
  destruct (String.eqb_spec (requested h) "openai") as [Ea|Ea];
    [|destruct (String.eqb_spec (requested h) "gemini") as [Eb|Eb]].
  - rewrite Ea.
    destruct (openai_importable h), (key_missing (getenv _ "OPENAI_API_KEY"));
      simpl; repeat split; try discriminate; try tauto;
      intros; intuition discriminate.
  - rewrite Eb.
    destruct (genai_importable h), (key_missing (getenv _ "GEMINI_API_KEY"));
      simpl; repeat split; try discriminate; try tauto;
      intros; intuition discriminate.
  - repeat split; try discriminate; try tauto; intros; intuition discriminate.
Qed.

Lemma C2_backend_invariant_witness :
  backend_kind (BACKEND (run (startup host_openai_ok).1
                           [(providers_down, POST_get_response hi_body);
                            (providers_down, GET_home)])) = ProviderA
  ∧ backend_kind (BACKEND (run (startup host_gemini_no_key).1
                           [(providers_down, POST_get_response hi_body)]))
    = Local.
Proof.
  split.
  - apply (C2_backend_invariant host_openai_ok). repeat split; reflexivity.
  - apply (C2_backend_invariant host_gemini_no_key).
    split; intros [_ H]; vm_compute in H; discriminate.
Defined.

(** C3 — an unrecognised backend name.  When the lower-cased
    [CHATBOT_BACKEND] is none of [simple], [openai], [gemini], start-up
    leaves it in [BACKEND] and the dispatch treats it as Local: every
    request is answered by the rule-based responder, without any outbound
    call. *)
Theorem C3_unrecognised_backend_is_local (h : host) :
  requested h ≠ "simple" → requested h ≠ "openai" → requested h ≠ "gemini" →
  resolved h = requested h
  ∧ resolved_kind h = Local
  ∧ ∀ (w : providers) (rs : list (providers * request)) (m : string),
      dispatch w m (run (startup h).1 rs)
      = (Ok (PStr (get_bot_reply_simple m)), (startup h).1, []).
Proof.
  intros _ Ha Hb.
  assert (Hk : resolved_kind h = Local).
  { rewrite startup_kind.
    destruct (String.eqb_spec (requested h) "openai"); [done|].
    destruct (String.eqb_spec (requested h) "gemini"); done. }
  split; [|split; [exact Hk|]].
  - rewrite startup_BACKEND.
    destruct (String.eqb_spec (requested h) "openai"); [done|].
    destruct (String.eqb_spec (requested h) "gemini"); done.
  - intros w rs m. rewrite run_keeps. apply dispatch_local. exact Hk.
Qed.

Lemma C3_unrecognised_backend_is_local_witness :
  resolved_kind host_unknown = Local
  ∧ dispatch providers_down "any courses?" (startup host_unknown).1
    = (Ok (PStr courses_reply), (startup host_unknown).1, []).
Proof.
  destruct (C3_unrecognised_backend_is_local host_unknown) as (_ & Hk & Hd);
    [vm_compute; discriminate ..|].
  split; [exact Hk|]. exact (Hd providers_down [] "any courses?").
Defined.

(** ** The local responder *)

Lemma get_bot_reply_simple_lower (m m' : string) :
  Text.lower m = Text.lower m' →
  get_bot_reply_simple m = get_bot_reply_simple m'.
Proof. unfold get_bot_reply_simple. intros ->. reflexivity. Qed.

(** C4 — rule order of the local responder.  The keywords are looked for
    in the lower-cased message in the order hello/hi, course/courses,
    assignment, help, and the first rule that matches gives the reply; the
    message "hello, I need help with an assignment" mentions [help] and
    [assignment] and still gets the greeting; a message with none of the
    keywords gets the fallback reply, whose text names courses,
    assignments and login. *)
Theorem C4_local_rule_order :
  (∀ m, mentions m "hello" = true ∨ mentions m "hi" = true →
        get_bot_reply_simple m = greeting_reply)
  ∧ (∀ m, mentions m "hello" = false → mentions m "hi" = false →
          mentions m "course" = true ∨ mentions m "courses" = true →
          get_bot_reply_simple m = courses_reply)
  ∧ (∀ m, mentions m "hello" = false → mentions m "hi" = false →
          mentions m "course" = false → mentions m "courses" = false →
          mentions m "assignment" = true →
          get_bot_reply_simple m = assignment_reply)
  ∧ (∀ m, mentions m "hello" = false → mentions m "hi" = false →
          mentions m "course" = false → mentions m "courses" = false →
          mentions m "assignment" = false → mentions m "help" = true →
          get_bot_reply_simple m = help_reply)
  ∧ (∀ m, mentions m "hello" = false → mentions m "hi" = false →
          mentions m "course" = false → mentions m "courses" = false →
          mentions m "assignment" = false → mentions m "help" = false →
          get_bot_reply_simple m = fallback_reply)
  ∧ (let m := "hello, I need help with an assignment" in
     mentions m "assignment" = true ∧ mentions m "help" = true
     ∧ get_bot_reply_simple m = greeting_reply
     ∧ get_bot_reply_simple m ≠ assignment_reply
     ∧ get_bot_reply_simple m ≠ help_reply)
  ∧ (Text.contains fallback_reply "courses" = true
     ∧ Text.contains fallback_reply "assignments" = true
     ∧ Text.contains fallback_reply "login" = true).
Proof.
  unfold get_bot_reply_simple, mentions. repeat apply conj.
  - intros m [-> | ->]; [reflexivity | rewrite orb_true_r; reflexivity].
  - intros m -> -> [-> | ->]; [reflexivity | rewrite orb_true_r; reflexivity].
  - intros m -> -> -> -> ->. reflexivity.
  - intros m -> -> -> -> -> ->. reflexivity.
  - intros m -> -> -> -> -> ->. reflexivity.
  - reflexivity.
  - reflexivity.
  - reflexivity.
  - vm_compute. discriminate.
  - vm_compute. discriminate.
  - reflexivity.
  - reflexivity.
  - reflexivity.
Qed.

Lemma C4_local_rule_order_witness :
  get_bot_reply_simple "Say HI to the class" = greeting_reply
  ∧ get_bot_reply_simple "what courses are available" = courses_reply
  ∧ get_bot_reply_simple "My ASSIGNMENT is late" = assignment_reply
  ∧ get_bot_reply_simple "need some help" = help_reply
  ∧ get_bot_reply_simple "xyz123" = fallback_reply.
Proof.
  destruct C4_local_rule_order as (H1 & H2 & H3 & H4 & H5 & _).
  repeat apply conj.
  - apply H1. right. reflexivity.
  - apply H2; [reflexivity | reflexivity | left; reflexivity].
  - apply H3; reflexivity.
  - apply H4; reflexivity.
  - apply H5; reflexivity.
Defined.

(** C9 — the local responder is a pure function of the message and does
    not look at the case of ASCII letters.  Under a Local backend the
    dispatch gives the reply of [get_bot_reply_simple] whatever the
    providers and the other globals are, calls nothing and logs nothing;
    two messages that differ only in the case of their ASCII letters get
    the same reply, such as "HELLO" and "hello". *)
Theorem C9_local_pure_ascii_case_insensitive :
  (∀ (w1 w2 : providers) (g1 g2 : globals) (m : string),
     backend_kind (BACKEND g1) = Local →
     backend_kind (BACKEND g2) = Local →
     dispatch w1 m g1 = (Ok (PStr (get_bot_reply_simple m)), g1, [])
     ∧ dispatch w2 m g2 = (Ok (PStr (get_bot_reply_simple m)), g2, []))
  ∧ (∀ m m', Text.same_up_to_case m m' →
             get_bot_reply_simple m = get_bot_reply_simple m')
  ∧ get_bot_reply_simple "HELLO" = get_bot_reply_simple "hello".
Proof.
  repeat apply conj.
  - intros w1 w2 g1 g2 m H1 H2. split; apply dispatch_local; assumption.
  - intros m m' H. apply get_bot_reply_simple_lower.
    apply TextFacts.lower_same_up_to_case, H.
  - reflexivity.
Qed.

Lemma C9_local_pure_ascii_case_insensitive_witness :
  get_bot_reply_simple "Any Courses?" = get_bot_reply_simple "aNY cOURSES?"
  ∧ dispatch providers_down "HELP" (startup host_default).1
    = (Ok (PStr help_reply), (startup host_default).1, []).
Proof.
  destruct C9_local_pure_ascii_case_insensitive as (Hd & Hc & _).
  split.
  - apply Hc. repeat (constructor; [vm_compute; tauto|]). constructor.
  - apply (Hd providers_down providers_down
              (startup host_default).1 (startup host_default).1 "HELP");
      reflexivity.
Defined.

(** C9, as first stated, fails.  "HI" is "hı" with its letter case
    changed (the upper-case form of U+0131, the dotless i, is "I"), yet
    "hı" is lowered to itself and gets the fallback while "HI" gets the
    greeting: the responder is not insensitive to every change of letter
    case. *)
Lemma C9_counterexample :
  ¬ (∀ m m', Text.case_changed m m' →
             get_bot_reply_simple m = get_bot_reply_simple m').
Proof.
  intros H.
  assert (Hc : Text.case_changed ("h" +:+ Text.dotless_i) "HI").
  { apply (Text.cc_ascii "h" "H" Text.dotless_i "I"); [right; left; reflexivity|].
    apply (Text.cc_dotless_i EmptyString EmptyString). constructor. }
  specialize (H _ _ Hc). vm_compute in H. discriminate H.
Qed.

(** ** Input validation *)

Lemma user_message_of_non_dict (data : pyval) :
  (∀ d, data ≠ PDict d) →
  user_message_of data = Raise (no_attribute data "get").
Proof. intros H. destruct data; try reflexivity. destruct (H d eq_refl). Qed.

Lemma user_message_of_blank (d : list (string * pyval)) :
  message_blank d ↔
  ∃ um, user_message_of (PDict d) = Ok um ∧ Text.is_empty um = true.
Proof.
  unfold message_blank, user_message_of. simpl.
  destruct (assoc "message" d) as [v|]; simpl.
  - unfold py_or. destruct (truthy v) eqn:Ht.
    + split.
      * intros [H | (s & -> & Hs)]; [discriminate|].
        exists (Text.strip s). split; [reflexivity|].
        apply TextFacts.strip_empty, Hs.
      * intros (um & H & He). destruct v; try discriminate H.
        simpl in H. injection H as <-. right. exists s.
        split; [reflexivity|]. apply TextFacts.strip_empty, He.
    + split; [|intros _; left; reflexivity].
      intros _. exists EmptyString. split; reflexivity.
  - split; [|trivial]. intros _. exists EmptyString. split; reflexivity.
Qed.

Lemma user_message_of_truthy_non_str (d : list (string * pyval)) (v : pyval) :
  assoc "message" d = Some v → truthy v = true → is_str v = false →
  user_message_of (PDict d) = Raise (no_attribute v "strip").
Proof.
  intros Hd Ht Hs. unfold user_message_of. simpl. rewrite Hd. simpl.
  unfold py_or. rewrite Ht. destruct v; try reflexivity. discriminate.
Qed.

(** C5 — input validation.  A body that does not parse as JSON is
    answered 400 with error "Invalid JSON body".  A body that parses to a
    JSON object is answered 400 with error "No message provided" exactly
    when its [message] is missing, null or another falsy value ([false],
    [0], [""], an empty list or object), or a string that is blank once
    trimmed, as it is for [{}] and [{"message": "  "}].  In these cases
    nothing is called and nothing is logged, whatever the backend and the
    providers. *)
Theorem C5_validation_400 (w : providers) (g : globals) :
  get_response w None g
  = (Ok (Json 400 (PDict [("error", PStr "Invalid JSON body")])), g, [])
  ∧ (∀ d, message_blank d →
          get_response w (Some (PDict d)) g
          = (Ok (Json 400 (PDict [("error", PStr "No message provided")])),
             g, []))
  ∧ (∀ d, status_of (get_response w (Some (PDict d)) g).1.1 = Some 400
          ↔ message_blank d)
  ∧ get_response w (Some (PDict [])) g
    = (Ok (Json 400 (PDict [("error", PStr "No message provided")])), g, [])
  ∧ get_response w (Some (PDict [("message", PNone)])) g
    = (Ok (Json 400 (PDict [("error", PStr "No message provided")])), g, [])
  ∧ get_response w (Some (PDict [("message", PStr "  ")])) g
    = (Ok (Json 400 (PDict [("error", PStr "No message provided")])), g, []).
Proof.
  assert (Hblank : ∀ d, message_blank d →
            get_response w (Some (PDict d)) g
            = (Ok (Json 400 (PDict [("error", PStr "No message provided")])),
               g, [])).
  { intros d (um & Hum & He)%user_message_of_blank.
    rewrite get_response_parsed, Hum, He. reflexivity. }
  split; [reflexivity|]. split; [exact Hblank|].
  split; [|repeat apply conj; reflexivity].
  intros d. split.
  - rewrite get_response_parsed.
    destruct (user_message_of (PDict d)) as [um|e] eqn:Hum; [|discriminate].
    destruct (Text.is_empty um) eqn:He.
    + intros _. apply user_message_of_blank. eauto.
    + destruct (dispatch w um g) as [[[reply|e] g'] ev]; discriminate.
  - intros Hd. rewrite (Hblank d Hd). reflexivity.
Qed.

Lemma C5_validation_400_witness :
  get_response providers_down (Some (PDict [("message", PStr "")]))
    (startup host_openai_ok).1
  = (Ok (Json 400 (PDict [("error", PStr "No message provided")])),
     (startup host_openai_ok).1, [])
  ∧ ¬ message_blank [("message", PStr "hi")].
Proof.
  destruct (C5_validation_400 providers_down (startup host_openai_ok).1)
    as (_ & Hb & Hiff & _).
  split.
  - apply Hb. left. reflexivity.
  - intros H%Hiff. vm_compute in H. discriminate.
Defined.

(** C5, as first stated, fails in both directions.  The body [[]] parses
    and has no [message] field, yet it is not answered 400: [data.get]
    raises at line 168.  The body [{"message": 0}] has a [message] that is
    neither missing, nor null, nor an empty string, yet it is answered
    400, since [0 or ""] is [""]. *)
Lemma C5_counterexample :
  (claimed_invalid (Some (PList []))
   ∧ status_of (get_response providers_down (Some (PList []))
                  (startup host_default).1).1.1 ≠ Some 400)
  ∧ (¬ claimed_invalid (Some (PDict [("message", PInt 0)]))
     ∧ get_response providers_down (Some (PDict [("message", PInt 0)]))
         (startup host_default).1
       = (Ok (Json 400 (PDict [("error", PStr "No message provided")])),
          (startup host_default).1, [])).
Proof.
  split; split.
  - exact I.
  - vm_compute. discriminate.
  - intros H. exact H.
  - reflexivity.
Qed.

(** C6 — under the Local backend, the body [{"message": "hi"}] is answered
    200 with exactly [{"reply": "Hi there! How can I help you today?"}]. *)
Theorem C6_hi_under_local (w : providers) (g : globals) :
  backend_kind (BACKEND g) = Local →
  get_response w (Some (PDict [("message", PStr "hi")])) g
  = (Ok (Json 200 (PDict [("reply", PStr "Hi there! How can I help you today?")])),
     g, []).
Proof.
  intros Hk. rewrite get_response_parsed. simpl.
  rewrite dispatch_local by exact Hk. reflexivity.
Qed.

Lemma C6_hi_under_local_witness :
  get_response providers_down (Some (PDict [("message", PStr "hi")]))
    (startup host_default).1
  = (Ok (Json 200 (PDict [("reply", PStr "Hi there! How can I help you today?")])),
     (startup host_default).1, []).
Proof. apply C6_hi_under_local. reflexivity. Defined.

(** C10 — a truthy [message] that is not a string.  The body
    [{"message": 123}] parses, and the view raises [AttributeError] out of
    line 168, before either check: no response with a status comes back,
    neither the 400 nor the 500 one, and nothing is logged.  The same
    holds for every truthy non-string [message]. *)
Theorem C10_truthy_non_string_message (w : providers) (g : globals) :
  truthy (PInt 123) = true
  ∧ get_response w (Some (PDict [("message", PInt 123)])) g
    = (Raise (Exn AttributeError "'int' object has no attribute 'strip'"), g, [])
  ∧ (∀ d v, assoc "message" d = Some v → truthy v = true → is_str v = false →
            get_response w (Some (PDict d)) g
            = (Raise (no_attribute v "strip"), g, [])
            ∧ status_of (get_response w (Some (PDict d)) g).1.1 = None).
Proof.
  repeat apply conj; try reflexivity.
  intros d v Hd Ht Hs. rewrite get_response_parsed.
  rewrite (user_message_of_truthy_non_str d v Hd Ht Hs). split; reflexivity.
Qed.

Lemma C10_truthy_non_string_message_witness :
  status_of
    (get_response providers_down
       (Some (PDict [("message", PList [PStr "hi"])]))
       (startup host_default).1).1.1 = None.
Proof.
  destruct (C10_truthy_non_string_message providers_down
              (startup host_default).1) as (_ & _ & H).
  apply (H [("message", PList [PStr "hi"])] (PList [PStr "hi"])); reflexivity.
Defined.

(** ** The Gemini answer *)

(** [nested_text] finds a text exactly in the shape tested at lines
    145-153: [output] is a list or tuple whose first element is a dict,
    whose [content] is a list whose first element is a dict with a [text]
    entry. *)
Lemma nested_text_shape (r : py_object) (t : pyval) :
  nested_text r = Some t ↔
  ∃ d rest i rest',
    (getattr_or_None r "output" = PList (PDict d :: rest)
     ∨ getattr_or_None r "output" = PTuple (PDict d :: rest))
    ∧ assoc "content" d = Some (PList (PDict i :: rest'))
    ∧ assoc "text" i = Some t.
Proof.
  unfold nested_text. split.
  - destruct (getattr_or_None r "output") as [| | | | |[|first rest]|[|first rest]|];
      try discriminate;
      (destruct first as [| | | | | | |d]; try discriminate;
       destruct (assoc "content" d) as [content|] eqn:Hc; try discriminate;
       simpl;
       destruct content as [| | | | |[|item rest']| |]; try discriminate;
       destruct item as [| | | | | | |i]; try discriminate;
       intros Ht; exists d, rest, i, rest'; auto).
  - intros (d & rest & i & rest' & [-> | ->] & Hc & Ht);
      rewrite Hc; simpl; exact Ht.
Qed.

Lemma has_direct_text_true (r : py_object) :
  has_direct_text r = true ↔
  ∃ v, assoc "text" (attrs r) = Some v ∧ truthy v = true.
Proof.
  unfold has_direct_text, hasattr, getattr_or_None.
  destruct (assoc "text" (attrs r)) as [v|]; simpl.
  - split; [eauto | intros (v' & [= <-] & H); exact H].
  - split; [discriminate | intros (v' & H & _); discriminate H].
Qed.

Lemma has_direct_text_false (r : py_object) :
  has_direct_text r = false ↔ no_direct_text r.
Proof.
  unfold has_direct_text, hasattr, getattr_or_None, no_direct_text.
  destruct (assoc "text" (attrs r)) as [v|]; simpl.
  - split; [eauto|]. intros [H | (v' & [= <-] & H)]; [discriminate H | exact H].
  - split; auto.
Qed.

Lemma nested_text_nested_shape (r : py_object) (t : pyval) :
  nested_text r = Some t ↔ nested_shape r t.
Proof.
  rewrite nested_text_shape. unfold nested_shape, getattr_or_None.
  split; intros (d & rest & i & rest' & Ho & Hc & Ht);
    exists d, rest, i, rest'; (split; [|split; assumption]).
  - destruct (assoc "output" (attrs r)) as [o|]; simpl in Ho;
      destruct Ho as [Ho | Ho]; try discriminate Ho; subst o; auto.
  - destruct Ho as [-> | ->]; auto.
Qed.

(** C7 — the Gemini answer is read in order and never fails.  A truthy
    direct [text] is returned as it is; when [text] is absent or falsy
    and the answer carries the nested output / content / text structure,
    the nested text is returned as it is; when it has neither, the reply
    is [str(response)].  The reply is a string whenever the text fields
    found hold strings, and the fallback is as long as [str(response)]
    is. *)
Theorem C7_gemini_normalizer (r : py_object) :
  (∀ v, assoc "text" (attrs r) = Some v → truthy v = true →
        gemini_reply_of r = v)
  ∧ (∀ t, no_direct_text r → nested_shape r t → gemini_reply_of r = t)
  ∧ (no_direct_text r → (∀ t, ¬ nested_shape r t) →
     gemini_reply_of r = PStr (obj_str r))
  ∧ ((∀ v, assoc "text" (attrs r) = Some v → truthy v = true →
           is_str v = true) →
     (∀ t, nested_shape r t → is_str t = true) →
     is_str (gemini_reply_of r) = true).
Proof.
  unfold gemini_reply_of. repeat apply conj.
  - intros v Hv Ht.
    assert (Hd : has_direct_text r = true)
      by (apply has_direct_text_true; eauto).
    rewrite Hd. unfold getattr_or_None. rewrite Hv. reflexivity.
  - intros t Hd%has_direct_text_false Hn%nested_text_nested_shape.
    rewrite Hd, Hn. reflexivity.
  - intros Hd%has_direct_text_false Hn. rewrite Hd.
    destruct (nested_text r) as [t|] eqn:Et; [|reflexivity].
    destruct (Hn t). apply nested_text_nested_shape, Et.
  - intros Hd Hn. destruct (has_direct_text r) eqn:Ed.
    + apply has_direct_text_true in Ed as (v & Hv & Ht).
      unfold getattr_or_None. rewrite Hv. simpl. apply (Hd v Hv Ht).
    + destruct (nested_text r) as [t|] eqn:Et; [|reflexivity].
      apply Hn, nested_text_nested_shape, Et.
Qed.

Lemma C7_gemini_normalizer_witness :
  gemini_reply_of nested_answer = PStr "Read chapter 3."
  ∧ gemini_reply_of shapeless_answer = PStr "text=None candidates=[]".
Proof.
  split.
  - destruct (C7_gemini_normalizer nested_answer) as (_ & H & _).
    apply H; [left; reflexivity|].
    exists [("content", PList [PDict [("text", PStr "Read chapter 3.")]])],
      [], [("text", PStr "Read chapter 3.")], [].
    repeat split. left. reflexivity.
  - destruct (C7_gemini_normalizer shapeless_answer) as (_ & _ & H & _).
    apply H; [right; exists PNone; split; reflexivity|].
    intros t (d & rest & i & rest' & [Ho | Ho] & _); discriminate Ho.
Defined.

(** C7, as first stated, fails.  An answer whose nested text is [None]
    has no direct text and carries the nested structure, and the reply is
    that [None], not a string; an object with neither shape whose [str]
    is empty gets the empty string as its reply. *)
Lemma C7_counterexample :
  (no_direct_text null_text_answer
   ∧ nested_shape null_text_answer PNone
   ∧ gemini_reply_of null_text_answer = PNone
   ∧ ¬ ∃ s, gemini_reply_of null_text_answer = PStr s)
  ∧ (no_direct_text silent_answer
     ∧ (∀ t, ¬ nested_shape silent_answer t)
     ∧ gemini_reply_of silent_answer = PStr "").
Proof.
  split; repeat apply conj.
  - left. reflexivity.
  - exists [("content", PList [PDict [("text", PNone)]])], [],
      [("text", PNone)], [].
    repeat split. left. reflexivity.
  - reflexivity.
  - intros [s Hs]. discriminate Hs.
  - left. reflexivity.
  - intros t (d & rest & i & rest' & [Ho | Ho] & _); discriminate Ho.
  - reflexivity.
Qed.

(** ** Provider failures *)







(** C8 — a failing provider call.  For a valid message, whenever the
    dispatch raises, the view answers 500 with the exception's text in
    [error], logs it and raises nothing itself.  When the backend is
    [openai] (resp. [gemini]) and the provider call raises [e], that is
    what happens: the trace holds the one provider call and the two log
    records carrying [e], the reply of the local responder is not used,
    and [BACKEND] is unchanged. *)
Theorem C8_provider_failure_500 (w : providers) (g : globals)
    (data : pyval) (m : string) (e : exn) :
  user_message_of data = Ok m → Text.is_empty m = false →
  ((dispatch w m g).1.1 = Raise e →
     get_response w (Some data) g
     = (Ok (Json 500 (PDict [("error", PStr (exn_str e))])), g,
        (dispatch w m g).2
        ++ [Log ERROR "Error while generating reply" (Some e)]))
  ∧ (BACKEND g = "openai" → _openai_available g = true →
     ChatCompletion_create w (chat_request_for (OPENAI_MODEL g) m) = Raise e →
     get_response w (Some data) g
     = (Ok (Json 500 (PDict [("error", PStr (exn_str e))])), g,
        [CallOpenAI (chat_request_for (OPENAI_MODEL g) m);
         Log ERROR "OpenAI call failed" (Some e);
         Log ERROR "Error while generating reply" (Some e)]))
  ∧ (∀ client,
       BACKEND g = "gemini" → genai_client g = Some client →
       _gemini_available g = true →
       generate_content w (generate_request_for client (GEMINI_MODEL g) m)
         = Raise e →
       get_response w (Some data) g
       = (Ok (Json 500 (PDict [("error", PStr (exn_str e))])), g,
          [CallGemini (generate_request_for client (GEMINI_MODEL g) m);
           Log ERROR "Gemini call failed" (Some e);
           Log ERROR "Error while generating reply" (Some e)]))
  ∧ BACKEND (get_response w (Some data) g).1.2 = BACKEND g.
Proof.
  intros Hm He. rewrite get_response_parsed, Hm, He. repeat apply conj.
  - pose proof (dispatch_keeps w m g) as Hk.
    destruct (dispatch w m g) as [[[reply|e'] g'] ev]; simpl in *;
      [discriminate|].
    intros [= ->]. subst g'. reflexivity.
  - intros Hb Ha Hc. rewrite dispatch_openai by exact Hb.
    rewrite (get_bot_reply_openai_fails w m g e Ha Hc). reflexivity.
  - intros client Hb Hcl Ha Hc. rewrite dispatch_gemini by exact Hb.
    rewrite (get_bot_reply_gemini_fails w m g client e Hcl Ha Hc).
    reflexivity.
  - pose proof (dispatch_keeps w m g) as Hk.
    destruct (dispatch w m g) as [[[reply|e'] g'] ev]; simpl in *;
      subst g'; reflexivity.
Qed.

Lemma C8_provider_failure_500_witness :
  get_response providers_down hi_body (startup host_openai_ok).1
  = (Ok (Json 500 (PDict [("error", PStr "request timed out")])),
     (startup host_openai_ok).1,
     [CallOpenAI (chat_request_for "gpt-3.5-turbo" "hi");
      Log ERROR "OpenAI call failed" (Some timeout_error);
      Log ERROR "Error while generating reply" (Some timeout_error)])
  ∧ (get_response providers_down hi_body (startup host_gemini_ok).1).1.1
    = Ok (Json 500 (PDict [("error", PStr "request timed out")])).
Proof.
  split.
  - destruct (C8_provider_failure_500 providers_down
                (startup host_openai_ok).1 (PDict [("message", PStr "hi")])
                "hi" timeout_error eq_refl eq_refl) as (_ & H & _).
    apply H; reflexivity.
  - destruct (C8_provider_failure_500 providers_down
                (startup host_gemini_ok).1 (PDict [("message", PStr "hi")])
                "hi" timeout_error eq_refl eq_refl) as (_ & _ & H & _).
    unfold hi_body. rewrite (H (Client None)); reflexivity.
Defined.


(** * Further properties of the module *)

(** ** Start-up: configuration, diagnostics and clients *)

Ltac boot_cases :=
  repeat match goal with
    | H : String.eqb _ _ = true |- _ => apply String.eqb_eq in H; subst
    | |- context [if ?c then _ else _] => destruct c eqn:?; simpl in *
    | |- context [match ?x with Some _ => _ | None => _ end] =>
        destruct x eqn:?; simpl in *
    end.

Lemma boot_environ (h : host) (g0 : globals) :
  os_environ (init_gemini h (init_openai g0).1).1 = os_environ g0.
Proof.
  destruct g0 as [oa ga env b ok om gk gm oak gc].
  unfold init_gemini, init_openai, getenv, getenv_or. simpl.
  boot_cases; try reflexivity; try discriminate.
  all: apply insert_id; assumption.
Qed.

Lemma startup_events (h : host) :
  (startup h).2 =
    (init_openai (after_imports h)).2
    ++ (init_gemini h (init_openai (after_imports h)).1).2
    ++ [Log INFO ("Chatbot backend selected: " +:+ resolved h) None].
Proof.
  unfold resolved, startup. destruct (init_openai _) as [g1 ev1]. simpl.
  destruct (init_gemini h g1) as [g2 ev2]. reflexivity.
Qed.

Lemma warnings_app (ev ev' : list event) :
  warnings (ev ++ ev') = warnings ev ++ warnings ev'.
Proof.
  induction ev as [|[[] msg exc| |] ev IH]; simpl; rewrite ?IH; reflexivity.
Qed.

Lemma boot_config (h : host) (g0 : globals) :
  let g := (init_gemini h (init_openai g0).1).1 in
  OPENAI_API_KEY g = getenv (os_environ g0) "OPENAI_API_KEY"
  ∧ OPENAI_MODEL g = getenv_or (os_environ g0) "OPENAI_MODEL" "gpt-3.5-turbo"
  ∧ GEMINI_API_KEY g = getenv (os_environ g0) "GEMINI_API_KEY"
  ∧ GEMINI_MODEL g = getenv_or (os_environ g0) "GEMINI_MODEL" "gemini-2.5-flash".
Proof.
  destruct g0 as [oa ga env b ok om gk gm oak gc].
  unfold init_gemini, init_openai, getenv, getenv_or. simpl.
  boot_cases; repeat apply conj; try reflexivity; try discriminate;
    congruence.
Qed.

Lemma boot_clients (h : host) (g0 : globals) :
  openai_api_key g0 = None → genai_client g0 = None →
  let g := (init_gemini h (init_openai g0).1).1 in
  openai_api_key g =
    (if String.eqb (BACKEND g) "openai"
     then getenv (os_environ g0) "OPENAI_API_KEY" else None)
  ∧ genai_client g =
    (if String.eqb (BACKEND g) "gemini"
     then Some (Client (if Client_takes_api_key h
                        then getenv (os_environ g0) "GEMINI_API_KEY"
                        else None))
     else None).
Proof.
  destruct g0 as [oa ga env b ok om gk gm oak gc]. simpl.
  intros -> ->.
  unfold init_gemini, init_openai, getenv, getenv_or. simpl.
  destruct (String.eqb b "openai") eqn:Ea.
  - apply String.eqb_eq in Ea. subst b.
    destruct oa; simpl; [|split; reflexivity].
    destruct (env !! "OPENAI_API_KEY") as [k|]; simpl;
      [destruct (Text.is_empty k)|]; split; reflexivity.
  - simpl. destruct (String.eqb b "gemini") eqn:Eb.
    + apply String.eqb_eq in Eb. subst b.
      destruct ga; simpl; [|split; reflexivity].
      destruct (env !! "GEMINI_API_KEY") as [k|]; simpl;
        [destruct (Text.is_empty k); simpl|]; try (split; reflexivity).
      destruct (Client_takes_api_key h); split; reflexivity.
    + simpl. rewrite Ea, Eb. split; reflexivity.
Qed.

Lemma boot_warnings (h : host) (g0 : globals) :
  warnings ((init_openai g0).2 ++ (init_gemini h (init_openai g0).1).2) =
    if String.eqb (BACKEND g0) "openai" then
      if negb (_openai_available g0) then [warn_openai_library]
      else if key_missing (getenv (os_environ g0) "OPENAI_API_KEY")
           then [warn_openai_key] else []
    else if String.eqb (BACKEND g0) "gemini" then
      if negb (_gemini_available g0) then [warn_gemini_library]
      else if key_missing (getenv (os_environ g0) "GEMINI_API_KEY")
           then [warn_gemini_key] else []
    else [].
Proof.
  destruct g0 as [oa ga env b ok om gk gm oak gc].
  unfold init_gemini, init_openai, getenv, getenv_or. simpl.
  destruct (String.eqb b "openai") eqn:Ea.
  - apply String.eqb_eq in Ea. subst b.
    destruct oa; simpl; [|reflexivity].
    destruct (key_missing (env !! "OPENAI_API_KEY")); reflexivity.
  - simpl. destruct (String.eqb b "gemini"); [|reflexivity].
    destruct ga; simpl; [|reflexivity].
    destruct (env !! "GEMINI_API_KEY") as [key|]; simpl; [|reflexivity].
    destruct (Text.is_empty key); reflexivity.
Qed.

Lemma boot_silent (h : host) (g0 : globals) :
  String.eqb (BACKEND g0) "openai" = false →
  String.eqb (BACKEND g0) "gemini" = false →
  (init_openai g0).2 ++ (init_gemini h (init_openai g0).1).2 = [].
Proof.
  destruct g0 as [oa ga env b ok om gk gm oak gc]. simpl. intros Ea Eb.
  unfold init_gemini, init_openai. simpl. rewrite Ea. simpl. rewrite Eb.
  reflexivity.
Qed.

(** X1 — once [load_dotenv] has run, the rest of the module body leaves
    [os.environ] as it is: its one assignment, to
    [os.environ["GEMINI_API_KEY"]] at line 61, stores the value just read
    from that variable at line 50. *)
Theorem X1_startup_keeps_environ (h : host) :
  os_environ (startup h).1 = environ h.
Proof. rewrite startup_globals. apply boot_environ. Qed.

(** X2 — the keys and the model names are read from the environment
    whatever backend is chosen; a model name falls back to its default
    only when its variable is unset, so a variable set to the empty
    string gives an empty model name. *)
Theorem X2_startup_configuration (h : host) :
  let g := (startup h).1 in
  OPENAI_API_KEY g = environ h !! "OPENAI_API_KEY"
  ∧ GEMINI_API_KEY g = environ h !! "GEMINI_API_KEY"
  ∧ (∀ v, environ h !! "OPENAI_MODEL" = Some v → OPENAI_MODEL g = v)
  ∧ (environ h !! "OPENAI_MODEL" = None → OPENAI_MODEL g = "gpt-3.5-turbo")
  ∧ (∀ v, environ h !! "GEMINI_MODEL" = Some v → GEMINI_MODEL g = v)
  ∧ (environ h !! "GEMINI_MODEL" = None → GEMINI_MODEL g = "gemini-2.5-flash").
Proof.
  simpl. rewrite startup_globals.
  destruct (boot_config h (after_imports h)) as (-> & -> & -> & ->).
  unfold getenv, getenv_or. simpl.
  repeat apply conj; try reflexivity; intros; rewrite H; reflexivity.
Qed.

Lemma X2_startup_configuration_witness :
  GEMINI_MODEL (startup host_gemini_models).1 = "gemini-pro"
  ∧ OPENAI_MODEL (startup host_gemini_models).1 = ""
  ∧ OPENAI_MODEL (startup host_gemini_ok).1 = "gpt-3.5-turbo".
Proof.
  repeat apply conj.
  - apply (X2_startup_configuration host_gemini_models). reflexivity.
  - apply (X2_startup_configuration host_gemini_models). reflexivity.
  - apply (X2_startup_configuration host_gemini_ok). reflexivity.
Defined.

(** X3 — start-up sets up only the provider it keeps.  [openai.api_key]
    is assigned exactly when the backend stays [openai], with the key read
    from the environment; [genai_client] is bound exactly when the backend
    stays [gemini], built with the key when [genai.Client] takes
    [api_key] and without arguments when it does not. *)
Theorem X3_startup_clients (h : host) :
  let g := (startup h).1 in
  openai_api_key g =
    (if String.eqb (resolved h) "openai"
     then environ h !! "OPENAI_API_KEY" else None)
  ∧ genai_client g =
    (if String.eqb (resolved h) "gemini"
     then Some (Client (if Client_takes_api_key h
                        then environ h !! "GEMINI_API_KEY" else None))
     else None).
Proof.
  simpl. unfold resolved. rewrite startup_globals.
  apply (boot_clients h (after_imports h)); reflexivity.
Qed.

(** X4 — the start-up diagnostics.  At most one warning is logged, and one
    is logged exactly when the backend asked for is not the one kept; a
    missing library is reported in preference to a missing key; the last
    record names the backend kept. *)
Theorem X4_startup_diagnostics (h : host) :
  warnings (startup h).2 =
    (if String.eqb (requested h) "openai" then
       if negb (openai_importable h) then [warn_openai_library]
       else if key_missing (getenv (environ h) "OPENAI_API_KEY")
            then [warn_openai_key] else []
     else if String.eqb (requested h) "gemini" then
       if negb (genai_importable h) then [warn_gemini_library]
       else if key_missing (getenv (environ h) "GEMINI_API_KEY")
            then [warn_gemini_key] else []
     else [])
  ∧ (length (warnings (startup h).2) ≤ 1)%nat
  ∧ (warnings (startup h).2 = [] ↔ resolved h = requested h)
  ∧ last (startup h).2
    = Some (Log INFO ("Chatbot backend selected: " +:+ resolved h) None).
Proof.
  assert (Hw : warnings (startup h).2 =
            warnings ((init_openai (after_imports h)).2
                      ++ (init_gemini h (init_openai (after_imports h)).1).2)).
  { rewrite startup_events, app_assoc, warnings_app. simpl.
    apply app_nil_r. }
  rewrite Hw, boot_warnings.
  change (BACKEND (after_imports h)) with (requested h).
  change (_openai_available (after_imports h)) with (openai_importable h).
  change (_gemini_available (after_imports h)) with (genai_importable h).
  change (os_environ (after_imports h)) with (environ h).
  split; [|split; [|split]].
  - reflexivity.
  - repeat match goal with |- context [if ?c then _ else _] => destruct c end;
      simpl; lia.
  - rewrite startup_BACKEND. unfold openai_ready, gemini_ready.
    destruct (String.eqb_spec (requested h) "openai") as [Ea|Ea];
      [|destruct (String.eqb_spec (requested h) "gemini") as [Eb|Eb]].
    + rewrite Ea. destruct (openai_importable h); simpl;
        [destruct (key_missing _); simpl|];
        split; intros; done.
    + rewrite Eb. destruct (genai_importable h); simpl;
        [destruct (key_missing _); simpl|];
        split; intros; done.
    + split; reflexivity.
  - rewrite startup_events, app_assoc. apply last_snoc.
Qed.

Lemma X4_startup_diagnostics_witness :
  warnings (startup host_both_missing).2 = [warn_openai_library]
  ∧ warnings (startup host_gemini_ok).2 = [].
Proof.
  split.
  - destruct (X4_startup_diagnostics host_both_missing) as (H & _).
    rewrite H. reflexivity.
  - apply (X4_startup_diagnostics host_gemini_ok). reflexivity.
Defined.

(** X5 — without [CHATBOT_BACKEND] the backend is [simple], whatever
    libraries and keys are there: start-up logs the one closing line, no
    warning, assigns no key and builds no client. *)
Theorem X5_startup_default (h : host) :
  environ h !! "CHATBOT_BACKEND" = None →
  resolved h = "simple"
  ∧ (startup h).2 = [Log INFO "Chatbot backend selected: simple" None]
  ∧ openai_api_key (startup h).1 = None
  ∧ genai_client (startup h).1 = None.
Proof.
  intros Hn.
  assert (Hr : requested h = "simple").
  { unfold requested, after_imports, getenv_or. simpl. rewrite Hn.
    reflexivity. }
  assert (Hs : resolved h = "simple").
  { rewrite startup_BACKEND, Hr. reflexivity. }
  destruct (boot_clients h (after_imports h) eq_refl eq_refl) as [Ho Hg].
  rewrite <- startup_globals in Ho, Hg. fold (resolved h) in Ho, Hg.
  repeat apply conj.
  - exact Hs.
  - rewrite startup_events, app_assoc, boot_silent, Hs;
      [reflexivity | | ]; change (BACKEND (after_imports h)) with (requested h);
      rewrite Hr; reflexivity.
  - rewrite Ho, Hs. reflexivity.
  - rewrite Hg, Hs. reflexivity.
Qed.

Lemma X5_startup_default_witness :
  resolved host_default = "simple"
  ∧ (startup host_default).2
    = [Log INFO "Chatbot backend selected: simple" None].
Proof.
  destruct (X5_startup_default host_default eq_refl) as (H1 & H2 & _).
  split; assumption.
Defined.

(** ** More on the local responder *)

Lemma courses_mentions_course (text : string) :
  Text.contains text "courses" = true → Text.contains text "course" = true.
Proof. apply (TextFacts.contains_piece text "" "course" "s"). Qed.

Ltac other_reply :=
  match goal with
  | H : @eq string _ _ |- _ => vm_compute in H; discriminate H
  end.

(** X6 — the greeting rule is a substring test, not a word test: a message
    with "hi" or "hello" anywhere inside it, in any letter case and even
    inside another word, is greeted, whatever else it mentions. *)
Theorem X6_greeting_by_substring (a k b : string) :
  Text.lower k = "hi" ∨ Text.lower k = "hello" →
  get_bot_reply_simple (a +:+ k +:+ b) = greeting_reply.
Proof.
  intros Hk. unfold get_bot_reply_simple.
  assert (H : (Text.contains (Text.lower (a +:+ k +:+ b)) "hello"
               || Text.contains (Text.lower (a +:+ k +:+ b)) "hi")%bool
              = true).
  { apply orb_true_iff.
    destruct Hk as [Hk | Hk]; [right | left];
      destruct (TextFacts.lower_ascii_inv k _ Hk eq_refl) as [Ha Hm];
      (destruct (TextFacts.lower_around_ascii a k b Ha) as [a' ->];
       [intros ->; discriminate Hm|]);
      rewrite Hm; apply TextFacts.contains_split; eauto. }
  rewrite H. reflexivity.
Qed.

Lemma X6_greeting_by_substring_witness :
  get_bot_reply_simple "Which courses cover THIS assignment?" = greeting_reply.
Proof.
  apply (X6_greeting_by_substring "Which courses cover T" "HI" "S assignment?").
  left. reflexivity.
Defined.

(** X7 — the reply tells which rule fired.  The five replies are distinct,
    so a reply is the greeting exactly when the message mentions hello or
    hi, the courses reply exactly when it mentions neither but mentions
    course (the test for "courses" never decides), and so on down to the
    fallback, given exactly when none of hello, hi, course, assignment and
    help is mentioned. *)
Theorem X7_reply_identifies_rule (m : string) :
  (get_bot_reply_simple m = greeting_reply ↔
     mentions m "hello" = true ∨ mentions m "hi" = true)
  ∧ (get_bot_reply_simple m = courses_reply ↔
     mentions m "hello" = false ∧ mentions m "hi" = false
     ∧ mentions m "course" = true)
  ∧ (get_bot_reply_simple m = assignment_reply ↔
     mentions m "hello" = false ∧ mentions m "hi" = false
     ∧ mentions m "course" = false ∧ mentions m "assignment" = true)
  ∧ (get_bot_reply_simple m = help_reply ↔
     mentions m "hello" = false ∧ mentions m "hi" = false
     ∧ mentions m "course" = false ∧ mentions m "assignment" = false
     ∧ mentions m "help" = true)
  ∧ (get_bot_reply_simple m = fallback_reply ↔
     mentions m "hello" = false ∧ mentions m "hi" = false
     ∧ mentions m "course" = false ∧ mentions m "assignment" = false
     ∧ mentions m "help" = false).
Proof.
  pose proof (courses_mentions_course (Text.lower m)) as Hc.
  unfold get_bot_reply_simple, mentions in *.
  destruct (Text.contains (Text.lower m) "hello"),
    (Text.contains (Text.lower m) "hi"),
    (Text.contains (Text.lower m) "course"),
    (Text.contains (Text.lower m) "courses"),
    (Text.contains (Text.lower m) "assignment"),
    (Text.contains (Text.lower m) "help"); simpl;
    try (specialize (Hc eq_refl); discriminate Hc); clear Hc;
    repeat split; intros; try reflexivity; try discriminate;
    try tauto; try other_reply;
    repeat match goal with H : _ ∧ _ |- _ => destruct H end;
    repeat match goal with H : _ ∨ _ |- _ => destruct H end;
    discriminate.
Qed.

Lemma X7_reply_identifies_rule_witness :
  mentions "any course?" "course" = true
  ∧ mentions "xyz" "help" = false.
Proof.
  split.
  - apply (X7_reply_identifies_rule "any course?"). reflexivity.
  - apply (X7_reply_identifies_rule "xyz"). reflexivity.
Defined.


(** ** The OpenAI adapter *)

Lemma get_bot_reply_openai_answers (w : providers) (m : string) (g : globals)
    (resp : pyval) :
  _openai_available g = true →
  ChatCompletion_create w (chat_request_for (OPENAI_MODEL g) m) = Ok resp →
  get_bot_reply_openai w m g =
    match completion_text resp with
    | Ok s => (Ok s, g, [CallOpenAI (chat_request_for (OPENAI_MODEL g) m)])
    | Raise e =>
        (Raise e, g,
         [CallOpenAI (chat_request_for (OPENAI_MODEL g) m);
          Log ERROR "OpenAI call failed" (Some e)])
    end.
Proof.
  intros Ha Hc.
  unfold get_bot_reply_openai, completion_text, mbind, M_bind, lift,
    try_except, logging_exception, emit, read, raise. simpl.
  rewrite Ha. simpl. rewrite Hc. simpl.
  destruct (getitem_str resp "choices") as [choices|e]; [|reflexivity].
  destruct (getitem_0 choices) as [choice|e]; [|reflexivity].
  destruct (getitem_str choice "message") as [message|e]; [|reflexivity].
  destruct (getitem_str message "content") as [content|e]; [|reflexivity].
  destruct (method_strip content) as [s|e]; reflexivity.
Qed.

Lemma getitem_str_ok (v : pyval) (key : string) (x : pyval) :
  getitem_str v key = Ok x ↔ ∃ d, v = PDict d ∧ assoc key d = Some x.
Proof.
  split.
  - destruct v; try discriminate. simpl.
    destruct (assoc key d) as [y|] eqn:E; [|discriminate].
    intros [= ->]. eauto.
  - intros (d & -> & H). simpl. rewrite H. reflexivity.
Qed.

(** The content read at lines 122-123, when the path is there. *)
Lemma completion_text_content (resp : pyval) (v : pyval) :
  completion_content resp v → completion_text resp = method_strip v.
Proof.
  intros (d & ch & rest & md & -> & Hc & Hm & Hv).
  unfold completion_text. simpl.
  destruct Hc as [-> | ->]; simpl; rewrite Hm; simpl; rewrite Hv;
    reflexivity.
Qed.

Lemma completion_text_ok (resp : pyval) (s : string) :
  completion_text resp = Ok s ↔
  ∃ c, completion_with resp c ∧ s = Text.strip c.
Proof.
  split.
  - unfold completion_text.
    destruct (getitem_str resp "choices") as [choices|] eqn:H1; [|discriminate].
    apply getitem_str_ok in H1 as (d & -> & Hd).
    destruct (getitem_0 choices) as [choice|] eqn:H2; [|discriminate].
    destruct (getitem_str choice "message") as [message|] eqn:H3;
      [|discriminate].
    apply getitem_str_ok in H3 as (ch & -> & Hch).
    destruct (getitem_str message "content") as [content|] eqn:H4;
      [|discriminate].
    apply getitem_str_ok in H4 as (md & -> & Hmd).
    destruct content; try discriminate. simpl. intros [= <-].
    exists s0. split; [|reflexivity].
    exists d, ch.
    destruct choices as [| | | |[|? ?]|[|x rest]|[|x rest]|]; try discriminate;
      injection H2 as ->; exists rest, md; auto.
  - intros (c & Hc & ->). rewrite (completion_text_content resp (PStr c) Hc).
    reflexivity.
Qed.

Lemma get_response_openai_answer (w : providers) (g : globals) (data : pyval)
    (m : string) (resp : pyval) :
  user_message_of data = Ok m → Text.is_empty m = false →
  BACKEND g = "openai" → _openai_available g = true →
  ChatCompletion_create w (chat_request_for (OPENAI_MODEL g) m) = Ok resp →
  get_response w (Some data) g =
    match completion_text resp with
    | Ok s =>
        (Ok (Json 200 (reply_body (PStr s))), g,
         [CallOpenAI (chat_request_for (OPENAI_MODEL g) m)])
    | Raise e =>
        (Ok (Json 500 (error_body (exn_str e))), g,
         [CallOpenAI (chat_request_for (OPENAI_MODEL g) m);
          Log ERROR "OpenAI call failed" (Some e);
          Log ERROR "Error while generating reply" (Some e)])
    end.
Proof.
  intros Hm He Hb Ha Hc.
  rewrite get_response_parsed, Hm, He, dispatch_openai by exact Hb.
  rewrite (get_bot_reply_openai_answers w m g resp Ha Hc).
  destruct (completion_text resp); reflexivity.
Qed.

(** X8 — a completion from OpenAI.  When the call returns, the view
    answers 200 exactly when the completion has the shape
    [choices[0].message.content] with a string content, and the reply is
    that content trimmed; any other completion is answered 500. *)
Theorem X8_openai_completion (w : providers) (g : globals) (data : pyval)
    (m : string) (resp : pyval) :
  user_message_of data = Ok m → Text.is_empty m = false →
  BACKEND g = "openai" → _openai_available g = true →
  ChatCompletion_create w (chat_request_for (OPENAI_MODEL g) m) = Ok resp →
  (∀ c, completion_with resp c →
        get_response w (Some data) g
        = (Ok (Json 200 (PDict [("reply", (PStr (Text.strip c)))])), g,
           [CallOpenAI (chat_request_for (OPENAI_MODEL g) m)]))
  ∧ (status_of (get_response w (Some data) g).1.1 = Some 200
     ↔ ∃ c, completion_with resp c)
  ∧ (status_of (get_response w (Some data) g).1.1 = Some 500
     ↔ ¬ ∃ c, completion_with resp c).
Proof.
  intros Hm He Hb Ha Hc.
  rewrite (get_response_openai_answer w g data m resp Hm He Hb Ha Hc).
  destruct (completion_text resp) as [s|e] eqn:Ht.
  - apply completion_text_ok in Ht as (c & Hs & ->).
    split; [|split].
    + intros c' Hs'.
      assert (Ht : completion_text resp = Ok (Text.strip c'))
        by (apply completion_text_ok; eauto).
      rewrite (completion_text_content resp (PStr c) Hs) in Ht.
      simpl in Ht. injection Ht as ->. reflexivity.
    + simpl. split; eauto.
    + simpl. split; [discriminate|]. intros Hn. destruct Hn. eauto.
  - assert (Hn : ¬ ∃ c, completion_with resp c).
    { intros (c & Hs).
      assert (completion_text resp = Ok (Text.strip c))
        by (apply completion_text_ok; eauto).
      congruence. }
    split; [|split].
    + intros c Hs. destruct Hn. eauto.
    + simpl. split; [discriminate | intros; contradiction].
    + simpl. split; [intros _; exact Hn | reflexivity].
Qed.

Lemma X8_openai_completion_witness :
  get_response providers_up hi_body (startup host_openai_ok).1
  = (Ok (Json 200 (PDict [("reply", (PStr "Start with chapter 2."))])),
     (startup host_openai_ok).1,
     [CallOpenAI (chat_request_for "gpt-3.5-turbo" "hi")]).
Proof.
  destruct (X8_openai_completion providers_up (startup host_openai_ok).1
              (PDict [("message", PStr "hi")]) "hi" good_completion
              eq_refl eq_refl eq_refl eq_refl eq_refl) as (H & _).
  apply (H "  Start with chapter 2.  ").
  exists [("id", PStr "cmpl-1");
          ("choices",
           PList [PDict [("index", PInt 0);
                         ("message",
                          PDict [("role", PStr "assistant");
                                 ("content", PStr "  Start with chapter 2.  ")])]])],
    [("index", PInt 0);
     ("message",
      PDict [("role", PStr "assistant");
             ("content", PStr "  Start with chapter 2.  ")])],
    [], [("role", PStr "assistant");
         ("content", PStr "  Start with chapter 2.  ")].
  repeat split. left. reflexivity.
Defined.

(** X9 — malformed completions.  A completion without [choices] is
    answered 500 with the text of the [KeyError], one with an empty
    [choices] list is answered 500 "list index out of range", and one
    whose [content] is not a string, such as null, is answered 500 with
    the [AttributeError] raised by [.strip()]. *)
Theorem X9_openai_malformed (w : providers) (g : globals) (data : pyval)
    (m : string) (resp : pyval) :
  user_message_of data = Ok m → Text.is_empty m = false →
  BACKEND g = "openai" → _openai_available g = true →
  ChatCompletion_create w (chat_request_for (OPENAI_MODEL g) m) = Ok resp →
  (∀ d, resp = PDict d → assoc "choices" d = None →
        (get_response w (Some data) g).1.1
        = Ok (Json 500 (PDict [("error", PStr "'choices'")])))
  ∧ (∀ d, resp = PDict d → assoc "choices" d = Some (PList []) →
          (get_response w (Some data) g).1.1
          = Ok (Json 500 (PDict [("error", PStr "list index out of range")])))
  ∧ (∀ v, completion_content resp v → is_str v = false →
          (get_response w (Some data) g).1.1
          = Ok (Json 500 (PDict [("error", PStr ("'" +:+ type_name v +:+ "' object has no attribute 'strip'"))]))).
Proof.
  intros Hm He Hb Ha Hc.
  rewrite (get_response_openai_answer w g data m resp Hm He Hb Ha Hc).
  split; [|split].
  - intros d -> Hd. unfold completion_text. simpl. rewrite Hd. reflexivity.
  - intros d -> Hd. unfold completion_text. simpl. rewrite Hd. reflexivity.
  - intros v Hv Hs. rewrite (completion_text_content resp v Hv).
    destruct v; try discriminate Hs; reflexivity.
Qed.

Lemma X9_openai_malformed_witness :
  (get_response providers_empty_choices hi_body (startup host_openai_ok).1).1.1
  = Ok (Json 500 (PDict [("error", PStr "list index out of range")])).
Proof.
  destruct (X9_openai_malformed providers_empty_choices
              (startup host_openai_ok).1 (PDict [("message", PStr "hi")]) "hi"
              (PDict [("choices", PList [])])
              eq_refl eq_refl eq_refl eq_refl eq_refl) as (_ & H & _).
  apply (H [("choices", PList [])]); reflexivity.
Defined.

(** ** The Gemini adapter *)

(** X10 — an answer from Gemini is never an error.  When the call
    returns, the view answers 200 with the reply read from the answer,
    after that one call and with nothing logged; a non-empty direct text
    is passed on as it is, surrounding white space included. *)
Theorem X10_gemini_answer (w : providers) (g : globals) (data : pyval)
    (m : string) (client : genai_Client) (r : py_object) :
  user_message_of data = Ok m → Text.is_empty m = false →
  BACKEND g = "gemini" → genai_client g = Some client →
  _gemini_available g = true →
  generate_content w (generate_request_for client (GEMINI_MODEL g) m) = Ok r →
  get_response w (Some data) g
  = (Ok (Json 200 (PDict [("reply", (gemini_reply_of r))])), g,
     [CallGemini (generate_request_for client (GEMINI_MODEL g) m)])
  ∧ (∀ t, assoc "text" (attrs r) = Some (PStr t) → t ≠ "" →
          (get_response w (Some data) g).1.1
          = Ok (Json 200 (PDict [("reply", (PStr t))]))).
Proof.
  intros Hm He Hb Hcl Ha Hc.
  assert (H : get_response w (Some data) g
              = (Ok (Json 200 (reply_body (gemini_reply_of r))), g,
                 [CallGemini (generate_request_for client (GEMINI_MODEL g) m)])).
  { rewrite get_response_parsed, Hm, He, dispatch_gemini by exact Hb.
    rewrite (get_bot_reply_gemini_answers w m g client r Hcl Ha Hc).
    reflexivity. }
  split; [exact H|].
  intros t Ht Hne. rewrite H. simpl.
  unfold gemini_reply_of, has_direct_text, hasattr, getattr_or_None.
  rewrite Ht. simpl. destruct t; [contradiction | reflexivity].
Qed.

Lemma X10_gemini_answer_witness :
  get_response providers_up hi_body (startup host_gemini_ok).1
  = (Ok (Json 200 (PDict [("reply", (PStr " Try the labs page. "))])),
     (startup host_gemini_ok).1,
     [CallGemini (generate_request_for (Client None) "gemini-2.5-flash" "hi")]).
Proof.
  apply (X10_gemini_answer providers_up (startup host_gemini_ok).1
           (PDict [("message", PStr "hi")]) "hi" (Client None)
           (PyObject [("text", PStr " Try the labs page. ")] "<response>"));
    reflexivity.
Defined.

(** X11 — where the nested lookup gives up.  With no direct text, an
    answer whose [output] is empty, or whose first output holds its
    [content] in a tuple rather than a list, or whose first content item
    has no [text] entry, is answered with [str(response)]. *)
Theorem X11_gemini_nested_misses (r : py_object) :
  has_direct_text r = false →
  (getattr_or_None r "output" = PList []
   ∨ getattr_or_None r "output" = PTuple [] →
   gemini_reply_of r = PStr (obj_str r))
  ∧ (∀ d rest items,
       getattr_or_None r "output" = PList (PDict d :: rest) →
       assoc "content" d = Some (PTuple items) →
       gemini_reply_of r = PStr (obj_str r))
  ∧ (∀ d rest i rest',
       getattr_or_None r "output" = PList (PDict d :: rest) →
       assoc "content" d = Some (PList (PDict i :: rest')) →
       assoc "text" i = None →
       gemini_reply_of r = PStr (obj_str r)).
Proof.
  intros Hd. unfold gemini_reply_of, nested_text. rewrite Hd.
  split; [|split].
  - intros [-> | ->]; reflexivity.
  - intros d rest items -> ->. reflexivity.
  - intros d rest i rest' -> -> Ht. simpl. rewrite Ht. reflexivity.
Qed.

Lemma X11_gemini_nested_misses_witness :
  gemini_reply_of
    (PyObject [("output", PList [PDict [("content", PTuple [PDict [("text", PStr "t")]])]])]
              "<response>")
  = PStr "<response>".
Proof.
  destruct (X11_gemini_nested_misses
              (PyObject [("output", PList [PDict [("content", PTuple [PDict [("text", PStr "t")]])]])]
                        "<response>") eq_refl) as (_ & H & _).
  eapply H; reflexivity.
Defined.

(** ** Traces: outbound calls and log records *)

Lemma calls_app (ev ev' : list event) : calls (ev ++ ev') = calls ev ++ calls ev'.
Proof. apply filter_app. Qed.

Lemma logs_app (ev ev' : list event) : logs (ev ++ ev') = logs ev ++ logs ev'.
Proof. apply filter_app. Qed.

Lemma get_bot_reply_openai_trace (w : providers) (m : string) (g : globals) :
  ∃ r ev,
    get_bot_reply_openai w m g = (r, g, ev)
    ∧ (length (calls ev) ≤ 1)%nat
    ∧ match r with
      | Ok _ => logs ev = []
      | Raise e => logs ev = [Log ERROR "OpenAI call failed" (Some e)]
      end.
Proof.
  destruct (_openai_available g) eqn:Ha.
  - destruct (ChatCompletion_create w (chat_request_for (OPENAI_MODEL g) m))
      as [resp|e] eqn:Hc.
    + rewrite (get_bot_reply_openai_answers w m g resp Ha Hc).
      destruct (completion_text resp); do 2 eexists;
        (split; [reflexivity|]); split; simpl; auto.
    + rewrite (get_bot_reply_openai_fails w m g e Ha Hc).
      do 2 eexists. split; [reflexivity|]. split; simpl; auto.
  - unfold get_bot_reply_openai, mbind, M_bind, lift, try_except,
      logging_exception, emit, read, raise. simpl. rewrite Ha. simpl.
    do 2 eexists. split; [reflexivity|]. split; simpl; auto.
Qed.

Lemma get_bot_reply_gemini_trace (w : providers) (m : string) (g : globals) :
  ∃ r ev,
    get_bot_reply_gemini w m g = (r, g, ev)
    ∧ (length (calls ev) ≤ 1)%nat
    ∧ match r with
      | Ok _ => logs ev = []
      | Raise e => logs ev = [Log ERROR "Gemini call failed" (Some e)]
      end.
Proof.
  destruct (genai_client g) as [client|] eqn:Hb;
    [destruct (_gemini_available g) eqn:Ha|].
  - destruct (generate_content w (generate_request_for client (GEMINI_MODEL g) m))
      as [r|e] eqn:Hc.
    + rewrite (get_bot_reply_gemini_answers w m g client r Hb Ha Hc).
      do 2 eexists. split; [reflexivity|]. split; simpl; auto.
    + rewrite (get_bot_reply_gemini_fails w m g client e Hb Ha Hc).
      do 2 eexists. split; [reflexivity|]. split; simpl; auto.
  - unfold get_bot_reply_gemini, mbind, M_bind, lift, try_except,
      logging_exception, emit, read, raise. simpl. rewrite Hb. simpl.
    rewrite Ha. simpl.
    do 2 eexists. split; [reflexivity|]. split; simpl; auto.
  - unfold get_bot_reply_gemini, mbind, M_bind, lift, try_except,
      logging_exception, emit, read, raise. simpl. rewrite Hb. simpl.
    do 2 eexists. split; [reflexivity|]. split; simpl; auto.
Qed.

Lemma dispatch_trace (w : providers) (m : string) (g : globals) :
  ∃ r ev,
    dispatch w m g = (r, g, ev)
    ∧ (length (calls ev) ≤ 1)%nat
    ∧ (backend_kind (BACKEND g) = Local → ev = [])
    ∧ match r with
      | Ok _ => logs ev = []
      | Raise e => ∃ msg, logs ev = [Log ERROR msg (Some e)]
      end.
Proof.
  destruct (String.eqb_spec (BACKEND g) "openai") as [Ea|Ea];
    [|destruct (String.eqb_spec (BACKEND g) "gemini") as [Eb|Eb]].
  - rewrite dispatch_openai by exact Ea.
    destruct (get_bot_reply_openai_trace w m g) as (r & ev & -> & Hc & Hl).
    unfold backend_kind. rewrite Ea. simpl.
    destruct r as [s|e]; do 2 eexists; (split; [reflexivity|]);
      (split; [exact Hc|]); (split; [discriminate|]); eauto.
  - rewrite dispatch_gemini by exact Eb.
    destruct (get_bot_reply_gemini_trace w m g) as (r & ev & -> & Hc & Hl).
    unfold backend_kind. rewrite Eb. simpl.
    destruct r as [s|e]; do 2 eexists; (split; [reflexivity|]);
      (split; [exact Hc|]); (split; [discriminate|]); eauto.
  - assert (Hk : backend_kind (BACKEND g) = Local).
    { unfold backend_kind.
      destruct (String.eqb_spec (BACKEND g) "openai"); [done|].
      destruct (String.eqb_spec (BACKEND g) "gemini"); done. }
    rewrite dispatch_local by exact Hk.
    do 2 eexists. split; [reflexivity|]. repeat split; simpl; auto.
Qed.

Lemma get_response_trace (w : providers) (body : option pyval) (g : globals) :
  ∃ r ev,
    get_response w body g = (r, g, ev)
    ∧ (length (calls ev) ≤ 1)%nat
    ∧ (backend_kind (BACKEND g) = Local → calls ev = [])
    ∧ match r with
      | Ok (Json 500 payload) =>
          ∃ e msg, payload = error_body (exn_str e)
                   ∧ logs ev = [Log ERROR msg (Some e);
                                Log ERROR "Error while generating reply" (Some e)]
      | _ => logs ev = []
      end.
Proof.
  destruct body as [data|];
    [|do 2 eexists; split; [reflexivity|]; repeat split; simpl; auto].
  rewrite get_response_parsed.
  destruct (user_message_of data) as [um|e];
    [|do 2 eexists; split; [reflexivity|]; repeat split; simpl; auto].
  destruct (Text.is_empty um);
    [do 2 eexists; split; [reflexivity|]; repeat split; simpl; auto|].
  destruct (dispatch_trace w um g) as (r & ev & -> & Hc & Hk & Hl).
  destruct r as [reply|e].
  - do 2 eexists. split; [reflexivity|]. repeat split; auto.
    intros H. rewrite (Hk H). reflexivity.
  - destruct Hl as [msg Hl]. do 2 eexists. split; [reflexivity|].
    rewrite calls_app, logs_app, Hl. simpl. rewrite app_nil_r.
    repeat split; eauto. intros H. rewrite (Hk H). reflexivity.
Qed.

(** X12 — outbound calls.  Serving a request makes at most one provider
    call; under a Local backend it makes none; a page route, and a request
    answered 400, leave no trace at all. *)
Theorem X12_at_most_one_call (w : providers) (r : request) (g : globals) :
  (length (calls (serve w r g).2) ≤ 1)%nat
  ∧ (backend_kind (BACKEND g) = Local → calls (serve w r g).2 = [])
  ∧ ((∀ body, r ≠ POST_get_response body) → (serve w r g).2 = [])
  ∧ (status_of (serve w r g).1.1 = Some 400 → (serve w r g).2 = []).
Proof.
  destruct r as [| | | | |body];
    try (repeat split; simpl; auto; discriminate).
  simpl.
  destruct (get_response_trace w body g) as (res & ev & Hr & Hc & Hk & Hl).
  rewrite Hr. simpl. repeat split; auto.
  - intros H. destruct (H body eq_refl).
  - intros Hs. clear Hl. revert Hr Hs.
    destruct body as [data|]; [|intros [= <- <-]; reflexivity].
    rewrite get_response_parsed.
    destruct (user_message_of data) as [um|e]; [|intros [= <- <-]; discriminate].
    destruct (Text.is_empty um); [intros [= <- <-]; reflexivity|].
    destruct (dispatch w um g) as [[[reply|e] g'] ev'];
      intros [= <- <- <-]; discriminate.
Qed.

Lemma X12_at_most_one_call_witness :
  calls (serve providers_down (POST_get_response hi_body)
           (startup host_unknown).1).2 = []
  ∧ (serve providers_up GET_labs (startup host_openai_ok).1).2 = [].
Proof.
  split.
  - destruct (X12_at_most_one_call providers_down (POST_get_response hi_body)
                (startup host_unknown).1) as (_ & H & _).
    apply H. reflexivity.
  - destruct (X12_at_most_one_call providers_up GET_labs
                (startup host_openai_ok).1) as (_ & _ & H & _).
    apply H. discriminate.
Defined.

(** X13 — log records.  The view logs exactly when it answers 500: then
    the adapter's record and the view's own record both carry the
    exception whose text is in the [error] field; a 200 or 400 answer, and
    an unhandled exception, leave nothing in the log. *)
Theorem X13_logs_only_on_500 (w : providers) (body : option pyval)
    (g : globals) :
  (logs (get_response w body g).2 ≠ []
   ↔ status_of (get_response w body g).1.1 = Some 500)
  ∧ (∀ payload, (get_response w body g).1.1 = Ok (Json 500 payload) →
       ∃ e msg,
         payload = PDict [("error", PStr (exn_str e))]
         ∧ logs (get_response w body g).2
           = [Log ERROR msg (Some e);
              Log ERROR "Error while generating reply" (Some e)]).
Proof.
  destruct (get_response_trace w body g) as (res & ev & Hr & _ & _ & Hl).
  rewrite Hr. simpl. split.
  - destruct res as [[st payload|t]|e]; simpl;
      try (split; [intros H; destruct (H Hl) | discriminate]).
    destruct (Z.eq_dec st 500) as [->|Hne].
    + destruct Hl as (e & msg & _ & ->). split; [reflexivity | discriminate].
    + assert (Hn : logs ev = []).
      { destruct st as [|[p|p|]|]; try exact Hl;
          repeat (destruct p as [p|p|]; try exact Hl).
        destruct (Hne eq_refl). }
      split; [intros H; destruct (H Hn) | intros [= ->]; destruct (Hne eq_refl)].
  - intros payload ->. exact Hl.
Qed.

Lemma X13_logs_only_on_500_witness :
  logs (get_response providers_down hi_body (startup host_gemini_ok).1).2 ≠ [].
Proof.
  apply (X13_logs_only_on_500 providers_down hi_body (startup host_gemini_ok).1).
  reflexivity.
Defined.

Lemma user_message_of_str (s : string) :
  user_message_of (PDict [("message", PStr s)]) = Ok (Text.strip s).
Proof. destruct s; reflexivity. Qed.

(** X14 — white space around the message does not matter: a body whose
    message is [s] is treated as the body whose message is [s] trimmed,
    down to the calls made and the records logged. *)
Theorem X14_surrounding_space_ignored (w : providers) (s : string)
    (g : globals) :
  get_response w (message_body s) g
  = get_response w (message_body (Text.strip s)) g.
Proof.
  unfold message_body. rewrite !get_response_parsed.
  rewrite !user_message_of_str, TextFacts.strip_idem. reflexivity.
Qed.

(** ** Outcomes of the view *)

Lemma user_message_of_raises (data : pyval) :
  (∃ e, user_message_of data = Raise e) ↔
  ((∀ d, data ≠ PDict d)
   ∨ ∃ d v, data = PDict d ∧ assoc "message" d = Some v
            ∧ truthy v = true ∧ is_str v = false).
Proof.
  split.
  - intros [e He].
    destruct data as [| | | | | | |d]; try (left; discriminate).
    right. unfold user_message_of in He. simpl in He.
    destruct (assoc "message" d) as [v|] eqn:Hv; [|discriminate He].
    simpl in He. unfold py_or in He.
    destruct (truthy v) eqn:Ht; [|discriminate He].
    exists d, v. repeat split; try assumption.
    destruct v; try reflexivity. discriminate He.
  - intros [H | (d & v & -> & Hv & Ht & Hs)].
    + eexists. apply user_message_of_non_dict, H.
    + eexists. apply (user_message_of_truthy_non_str d v Hv Ht Hs).
Qed.

Lemma user_message_of_raises_AttributeError (data : pyval) (e : exn) :
  user_message_of data = Raise e → exn_cls e = AttributeError.
Proof.
  destruct data as [| | | | | | |d]; try (intros [= <-]; reflexivity).
  unfold user_message_of. simpl.
  destruct (assoc "message" d) as [v|]; simpl; [|discriminate].
  unfold py_or. destruct (truthy v); [|discriminate].
  destruct v; intros [= <-]; reflexivity.
Qed.

(** X15 — what the view can give back.  A response it returns is JSON
    with status 200, 400 or 500, never a page; an exception that leaves
    it is an [AttributeError], and one leaves it exactly when the parsed
    body is not an object or its [message] is truthy and not a string. *)
Theorem X15_view_outcomes (w : providers) (body : option pyval) (g : globals) :
  (∀ st payload, (get_response w body g).1.1 = Ok (Json st payload) →
                 st = 200 ∨ st = 400 ∨ st = 500)
  ∧ (∀ t, (get_response w body g).1.1 ≠ Ok (Page t))
  ∧ (∀ e, (get_response w body g).1.1 = Raise e → exn_cls e = AttributeError)
  ∧ ((∃ e, (get_response w body g).1.1 = Raise e) ↔
     ∃ data, body = Some data
             ∧ ((∀ d, data ≠ PDict d)
                ∨ ∃ d v, data = PDict d ∧ assoc "message" d = Some v
                         ∧ truthy v = true ∧ is_str v = false)).
Proof.
  destruct body as [data|].
  - rewrite get_response_parsed.
    destruct (user_message_of data) as [um|e0] eqn:Hu.
    + assert (Hn : ¬ ∃ e, user_message_of data = Raise e).
      { intros [e He]. congruence. }
      rewrite user_message_of_raises in Hn.
      destruct (Text.is_empty um).
      * simpl. repeat split; try discriminate.
        -- intros st payload [= <- _]. auto.
        -- intros [e He]. discriminate He.
        -- intros (data' & [= <-] & Hb). destruct (Hn Hb).
      * destruct (dispatch w um g) as [[[reply|e] g'] ev]; simpl;
          repeat split; try discriminate;
          try (intros st payload [= <- _]; auto);
          try (intros [e' He]; discriminate He);
          intros (data' & [= <-] & Hb); destruct (Hn Hb).
    + simpl. repeat split; try discriminate.
      * intros e [= <-].
        apply (user_message_of_raises_AttributeError data e0 Hu).
      * intros _. exists data. split; [reflexivity|].
        apply user_message_of_raises. eauto.
      * eauto.
  - simpl. repeat split; try discriminate.
    + intros st payload [= <- _]. auto.
    + intros [e He]. discriminate He.
    + intros (data & Hd & _). discriminate Hd.
Qed.

Lemma X15_view_outcomes_witness :
  ∃ e, (get_response providers_up (Some (PList [PStr "hi"]))
          (startup host_default).1).1.1 = Raise e.
Proof.
  apply (X15_view_outcomes providers_up (Some (PList [PStr "hi"]))
           (startup host_default).1).
  exists (PList [PStr "hi"]). split; [reflexivity|]. left. discriminate.
Defined.

(** ** From start-up to the provider *)




